(** * CTBAL queue-integration scripts: a shallow embedding

    The three scripts under [scripts/] locate per-state mortality CSV files,
    derive a state label from each file name and hand every file to the
    external command [npm run queue:add].  This development embeds

    - [scripts/ctbal-scrape-integration.py]   as [ScrapeIntegration],
    - [scripts/add-processed-csvs-to-queue.py] as [AddProcessed],
    - [scripts/add-all-new-csvs.py]            as [AddAllNew],

    over an explicit model of the file system, of the Python process state
    (current directory, printed lines, spawned commands) and of the external
    command, and proves the properties of the pipeline.

    Conventions.  Python [str] values are modelled as [string] (sequences of
    8-bit characters; text outside ASCII is carried as its UTF-8 bytes, which
    [lower] leaves untouched and among which [strip] knows the white space).  The configured paths are Windows
    paths, so [pathlib] and [os.path] are modelled in their Windows flavour
    (both [/] and [\] separate components, [glob] matches case-insensitively);
    UNC prefixes are not modelled. *)

From Stdlib Require Import List Bool Arith ZArith Lia.
From Stdlib Require Import Strings.Ascii Strings.String Numbers.DecimalString.
From Stdlib Require Import Sorting.Permutation Sorting.Sorted Sorting.Mergesort.
From Stdlib Require Orders.
Import ListNotations.

Open Scope list_scope.
Open Scope string_scope.

(** ** Python string operations *)

Module Py.

(** [c.lower()] on one character: only [A]..[Z] change. *)
Definition lower_ascii (c : ascii) : ascii :=
  let n := nat_of_ascii c in
  if (65 <=? n)%nat && (n <=? 90)%nat then ascii_of_nat (n + 32) else c.

(** [s.lower()] *)
Fixpoint lower (s : string) : string :=
  match s with
  | EmptyString => EmptyString
  | String c s' => String (lower_ascii c) (lower s')
  end.

(** [s.startswith(p)] *)
Definition startswith (p s : string) : bool := String.prefix p s.

(** [needle in hay] *)
Fixpoint contains (needle hay : string) : bool :=
  if String.prefix needle hay then true
  else match hay with
       | EmptyString => false
       | String _ hay' => contains needle hay'
       end.

(** [s.endswith(suffix)] *)
Fixpoint endswith (suffix s : string) : bool :=
  if String.eqb suffix s then true
  else match s with
       | EmptyString => false
       | String _ s' => endswith suffix s'
       end.

(** [c in s] for a one-character [c] *)
Fixpoint has_char (c : ascii) (s : string) : bool :=
  match s with
  | EmptyString => false
  | String d s' => Ascii.eqb c d || has_char c s'
  end.

(** [s.split(sep)[0]] for a one-character [sep]: the characters before the
    first [sep], the whole of [s] when [sep] does not occur. *)
Fixpoint split_head (sep : ascii) (s : string) : string :=
  match s with
  | EmptyString => EmptyString
  | String c s' => if Ascii.eqb c sep then EmptyString
                   else String c (split_head sep s')
  end.

(** The white space [str.strip()] removes.  In one byte: TAB, LF, VT, FF,
    CR, FS, GS, RS, US and the space. *)
Definition isspace (c : ascii) : bool :=
  let n := nat_of_ascii c in
  ((9 <=? n)%nat && (n <=? 13)%nat) || ((28 <=? n)%nat && (n <=? 32)%nat).

(** In two bytes of UTF-8: U+0085 and U+00A0. *)
Definition isspace2 (c1 c2 : ascii) : bool :=
  let a := nat_of_ascii c1 in
  let b := nat_of_ascii c2 in
  (a =? 194)%nat && ((b =? 133)%nat || (b =? 160)%nat).

(** In three bytes of UTF-8: U+1680, U+2000 to U+200A, U+2028, U+2029,
    U+202F, U+205F and U+3000. *)
Definition isspace3 (c1 c2 c3 : ascii) : bool :=
  let a := nat_of_ascii c1 in
  let b := nat_of_ascii c2 in
  let c := nat_of_ascii c3 in
  ((a =? 225)%nat && (b =? 154)%nat && (c =? 128)%nat)
  || ((a =? 226)%nat && (b =? 128)%nat
      && (((128 <=? c)%nat && (c <=? 138)%nat)
          || (c =? 168)%nat || (c =? 169)%nat || (c =? 175)%nat))
  || ((a =? 226)%nat && (b =? 129)%nat && (c =? 159)%nat)
  || ((a =? 227)%nat && (b =? 128)%nat && (c =? 128)%nat).

Fixpoint lstrip (s : string) : string :=
  match s with
  | EmptyString => EmptyString
  | String c1 s1 =>
      if isspace c1 then lstrip s1
      else match s1 with
           | EmptyString => s
           | String c2 s2 =>
               if isspace2 c1 c2 then lstrip s2
               else match s2 with
                    | EmptyString => s
                    | String c3 s3 =>
                        if isspace3 c1 c2 c3 then lstrip s3 else s
                    end
           end
  end.

(** The text is cut where only white space follows. *)
Fixpoint rstrip (s : string) : string :=
  match s with
  | EmptyString => EmptyString
  | String c s' =>
      match lstrip s with
      | EmptyString => EmptyString
      | _ => String c (rstrip s')
      end
  end.

(** [s.strip()] *)
Definition strip (s : string) : string := rstrip (lstrip s).

(** [str(n)] for an integer. *)
Definition str (n : Z) : string := NilZero.string_of_int (Z.to_int n).

(** [len(xs)] *)
Definition len {A} (xs : list A) : Z := Z.of_nat (List.length xs).

(** Truthiness of a string, [if s:]. *)
Definition truthy (s : string) : bool :=
  match s with EmptyString => false | _ => true end.

(** Order of [sorted] on strings: lexicographic on the characters. *)
Module StringOrder <: Orders.TotalLeBool.
Definition t := string.
Definition leb (a b : string) : bool := String.leb a b.
Definition leb_total : forall a b, leb a b = true \/ leb b a = true :=
  String.leb_total.
End StringOrder.

Module StringSort := Mergesort.Sort StringOrder.

(** [sorted(xs)] on a list of strings. *)
Definition sorted (xs : list string) : list string := StringSort.sort xs.

End Py.

(** ** Windows paths: [os.path] and [pathlib] *)

Module NtPath.

Definition backslash : ascii := ascii_of_nat 92.
Definition sep : string := String backslash EmptyString.

Definition is_sep (c : ascii) : bool :=
  Ascii.eqb c backslash || Ascii.eqb c "/"%char.

(** [os.path.splitdrive]: a leading drive letter with its colon. *)
Definition splitdrive (p : string) : string * string :=
  match p with
  | String d (String ":" rest) => (String d (String ":" EmptyString), rest)
  | _ => (EmptyString, p)
  end.

Fixpoint has_sep (s : string) : bool :=
  match s with
  | EmptyString => false
  | String c s' => is_sep c || has_sep s'
  end.

(** The components between separators, empty ones included. *)
Fixpoint components (s : string) : list string :=
  match s with
  | EmptyString => [EmptyString]
  | String c s' =>
      if is_sep c then EmptyString :: components s'
      else match components s' with
           | h :: t => String c h :: t
           | [] => [String c EmptyString]
           end
  end.

(** Cut after the last separator: [(p[:i], p[i:])] of [ntpath.split]. *)
Fixpoint cut_last_sep (s : string) : string * string :=
  match s with
  | EmptyString => (EmptyString, EmptyString)
  | String c s' =>
      if has_sep s' then
        let (h, t) := cut_last_sep s' in (String c h, t)
      else if is_sep c then (String c EmptyString, s')
      else (EmptyString, s)
  end.

Fixpoint rstrip_seps (s : string) : string :=
  match s with
  | EmptyString => EmptyString
  | String c s' =>
      match rstrip_seps s' with
      | EmptyString => if is_sep c then EmptyString else String c EmptyString
      | r => String c r
      end
  end.

(** [os.path.split(p)]: [head.rstrip(seps) or head] with the drive put
    back, and the tail. *)
Definition split (p : string) : string * string :=
  let (d, rest) := splitdrive p in
  let (h, t) := cut_last_sep rest in
  let h' := match rstrip_seps h with EmptyString => h | r => r end in
  (d ++ h', t).

(** [os.path.basename(p)] *)
Definition basename (p : string) : string := snd (split p).

Fixpoint last_char (s : string) : option ascii :=
  match s with
  | EmptyString => None
  | String c EmptyString => Some c
  | String _ s' => last_char s'
  end.

(** [os.path.join(a, b)] for a relative [b] without a drive: a separator is
    inserted unless the path part of [a] is empty or ends with one. *)
Definition join (a b : string) : string :=
  match last_char (snd (splitdrive a)) with
  | None => a ++ b
  | Some c => if is_sep c then a ++ b else a ++ sep ++ b
  end.

(** [os.path.abspath(f)] for a bare entry name [f] (what [glob] returns for
    a pattern without a directory part): [normpath(join(getcwd(), f))],
    where [normpath] has nothing to change. *)
Definition abspath (cwd f : string) : string := join cwd f.

(** [Path(p).name]: the last component, empty and [.] components being
    dropped by [pathlib]. *)
Definition is_part (c : string) : bool :=
  negb (String.eqb c EmptyString || String.eqb c ".").

Definition name (p : string) : string :=
  last (filter is_part (components (snd (splitdrive p)))) EmptyString.

(** [(n[:i], n[i+1:])] for [i = n.rfind('.')]. *)
Fixpoint rcut_dot (n : string) : option (string * string) :=
  match n with
  | EmptyString => None
  | String c n' =>
      match rcut_dot n' with
      | Some (b, a) => Some (String c b, a)
      | None => if Ascii.eqb c "."%char then Some (EmptyString, n') else None
      end
  end.

(** [PurePath.stem]: [name[:i]] when [0 < i < len(name) - 1], else [name]. *)
Definition stem_of_name (n : string) : string :=
  match rcut_dot n with
  | Some (String c b, String d a) => String c b
  | _ => n
  end.

(** [Path(p).stem] *)
Definition stem (p : string) : string := stem_of_name (name p).

(** [os.path.normcase]: lower case, [/] turned into [\]. *)
Fixpoint normcase (s : string) : string :=
  match s with
  | EmptyString => EmptyString
  | String c s' =>
      String (if Ascii.eqb c "/"%char then backslash else Py.lower_ascii c)
             (normcase s')
  end.

End NtPath.

(** ** [fnmatch] and [glob] *)

Module Glob.

(** Shell-style matching with [*] and [?]; the patterns of the scripts use
    [*] only, bracket classes are not modelled. *)
Fixpoint wild (pat name : string) {struct pat} : bool :=
  match pat with
  | EmptyString => match name with EmptyString => true | _ => false end
  | String c pat' =>
      if Ascii.eqb c "*"%char then
        (fix star (n : string) : bool :=
           wild pat' n ||
           match n with
           | EmptyString => false
           | String _ n' => star n'
           end) name
      else match name with
           | EmptyString => false
           | String d name' =>
               (Ascii.eqb c "?"%char || Ascii.eqb c d) && wild pat' name'
           end
  end.

(** [fnmatch.fnmatch(name, pat)]: both sides are case-normalised. *)
Definition fnmatch (name pat : string) : bool :=
  wild (NtPath.normcase pat) (NtPath.normcase name).

(** [glob._ishidden] *)
Definition ishidden (s : string) : bool :=
  match s with String "." _ => true | _ => false end.

(** [glob._glob1]: the entries of a directory that match, hidden entries
    only for a pattern that is itself hidden. *)
Definition glob1 (entries : list string) (pat : string) : list string :=
  filter (fun n => (ishidden pat || negb (ishidden n)) && fnmatch n pat)
         entries.

End Glob.

(** ** The world outside the process *)

(** A path names a file, a directory with its entries (in the order the
    operating system lists them), or nothing. *)
Inductive Node : Type :=
| File
| Dir (entries : list string).

(** One call of [subprocess.run(cmd, shell=True, cwd=...)]. *)
Record Invocation : Type := mkInvocation {
  inv_cmd : string;
  inv_cwd : string
}.

(** [subprocess.CompletedProcess] *)
Record CompletedProcess : Type := mkCompleted {
  returncode : Z;
  stdout : string;
  stderr : string
}.

(** What the command does when it is spawned:
    - [Exited r]: the child ran to its end, and its output is valid text in
      the encoding of the caller;
    - [Undecodable r msg]: the child ran to its end, but its output is not
      valid text in the encoding of the caller: decoding it strictly fails
      with the message [msg], decoding it with [errors='replace'] gives the
      text of [r];
    - [CannotStart msg]: the child could not be started. *)
Inductive Outcome : Type :=
| Exited (r : CompletedProcess)
| Undecodable (r : CompletedProcess) (msg : string)
| CannotStart (msg : string).

(** How a call of [subprocess.run] reads the output of the child:
    [text=True] alone decodes strictly, [errors='replace'] never fails, and
    without [capture_output] the output is not read at all. *)
Inductive Decoding : Type :=
| Strict
| Replace
| Uncaptured.

(** - [fs]: the file system (the scripts only read it);
    - [spawn]: the external command, whose outcome may depend on everything
      spawned before;
    - [set_iter]: the order in which Python iterates over [set(xs)]. *)
Record World : Type := mkWorld {
  fs : string -> option Node;
  spawn : list Invocation -> Invocation -> Outcome;
  set_iter : list string -> list string
}.

(** Iterating over a set yields each distinct element once; the language
    promises nothing about the order. *)
Definition set_iter_ok (w : World) : Prop :=
  forall xs, NoDup (set_iter w xs) /\ (forall x, In x (set_iter w xs) <-> In x xs).

(** ** The process: state and exceptions *)

Record Proc : Type := mkProc {
  cwd : string;
  printed : list string;
  spawned : list Invocation
}.

Inductive Exn : Type :=
| FileNotFoundError (path : string)
| NotADirectoryError (path : string)
| RunError (msg : string)
| UnicodeDecodeError (msg : string).

(** [str(e)].  Only [RunError] and [UnicodeDecodeError] reach a handler in
    the scripts; the text of the file-system errors is the operating
    system's. *)
Definition exn_str (e : Exn) : string :=
  match e with
  | FileNotFoundError p => p
  | NotADirectoryError p => p
  | RunError m => m
  | UnicodeDecodeError m => m
  end.

Inductive Result (A : Type) : Type :=
| Ok (a : A)
| Raised (e : Exn).
Arguments Ok {A} a.
Arguments Raised {A} e.

Definition M (A : Type) : Type := Proc -> Result A * Proc.

Definition ret {A} (a : A) : M A := fun st => (Ok a, st).

Definition raise {A} (e : Exn) : M A := fun st => (Raised e, st).

Definition bind {A B} (m : M A) (k : A -> M B) : M B :=
  fun st =>
    match m st with
    | (Ok a, st') => k a st'
    | (Raised e, st') => (Raised e, st')
    end.

Declare Scope py_scope.
Delimit Scope py_scope with py.
Notation "x <- m ;; k" := (bind m (fun x => k))
  (at level 61, m at next level, right associativity) : py_scope.
Notation "m ;; k" := (bind m (fun _ => k))
  (at level 61, right associativity) : py_scope.
Open Scope py_scope.

(** [try: body except Exception as e: handler(e)] *)
Definition try_except {A} (body : M A) (handler : Exn -> M A) : M A :=
  fun st =>
    match body st with
    | (Raised e, st') => handler e st'
    | r => r
    end.

(** [for x in xs: body(x)] *)
Fixpoint for_each {A} (xs : list A) (body : A -> M unit) : M unit :=
  match xs with
  | [] => ret tt
  | x :: xs' => body x ;; for_each xs' body
  end.

(** A [for] loop that updates local variables [s]. *)
Fixpoint for_fold {A S} (xs : list A) (s : S) (body : S -> A -> M S) : M S :=
  match xs with
  | [] => ret s
  | x :: xs' => s' <- body s x ;; for_fold xs' s' body
  end.

Definition print (line : string) : M unit :=
  fun st => (Ok tt, mkProc (cwd st) (printed st ++ [line]) (spawned st)).

Definition getcwd : M string := fun st => (Ok (cwd st), st).

Section Primitives.
Variable w : World.

(** [os.chdir(p)] *)
Definition chdir (p : string) : M unit :=
  fun st =>
    match fs w p with
    | Some (Dir _) => (Ok tt, mkProc p (printed st) (spawned st))
    | Some File => (Raised (NotADirectoryError p), st)
    | None => (Raised (FileNotFoundError p), st)
    end.

(** [os.path.exists(p)] *)
Definition path_exists (p : string) : M bool :=
  ret (match fs w p with Some _ => true | None => false end).

(** [os.listdir(p)] *)
Definition listdir (p : string) : M (list string) :=
  match fs w p with
  | Some (Dir entries) => ret entries
  | Some File => raise (NotADirectoryError p)
  | None => raise (FileNotFoundError p)
  end.

Definition entries_of (dir : string) : list string :=
  match fs w dir with
  | Some (Dir entries) => entries
  | _ => []
  end.

(** [glob.glob(pathname)] for a pattern whose last component holds the
    wildcards: without a directory part the current directory is listed
    and bare names are returned, otherwise the directory is listed and the
    names are joined to it.  A directory that cannot be listed gives []. *)
Definition glob (pathname : string) : M (list string) :=
  fun st =>
    let (dirname, basename) := NtPath.split pathname in
    match dirname with
    | EmptyString => (Ok (Glob.glob1 (entries_of (cwd st)) basename), st)
    | _ => (Ok (map (NtPath.join dirname)
                    (Glob.glob1 (entries_of dirname) basename)), st)
    end.

(** [subprocess.run(cmd, shell=True, cwd=dir, ...)]: the parent's own
    current directory is not touched.  Output that is not valid text makes
    the call raise once the child has ended, unless the caller asked for
    [errors='replace'] or does not capture the output. *)
Definition subprocess_run (cmd dir : string) (decoding : Decoding)
  : M CompletedProcess :=
  fun st =>
    let inv := mkInvocation cmd dir in
    let st' := mkProc (cwd st) (printed st) (spawned st ++ [inv]) in
    match spawn w (spawned st) inv with
    | Exited r => (Ok r, st')
    | Undecodable r msg =>
        match decoding with
        | Strict => (Raised (UnicodeDecodeError msg), st')
        | _ => (Ok r, st')
        end
    | CannotStart msg => (Raised (RunError msg), st')
    end.

End Primitives.

Definition nl : string := String (ascii_of_nat 10) EmptyString.
Definition dquote : string := String (ascii_of_nat 34) EmptyString.

(** A row of the [states] tables. *)
Record State : Type := mkState {
  abbreviation : string;
  name : string;
  location_id : string
}.

(** ** scripts/ctbal-scrape-integration.py *)

Module ScrapeIntegration.

Definition SCRAPE_A_GRAVE_PATH : string :=
  "c:\Users\djman\OneDrive\Documents\GitHub\scrape-a-grave".
Definition CTBAL_PROJECT_PATH : string :=
  "c:\Users\djman\OneDrive\Documents\GitHub\ctbal".

Definition patterns : list string :=
  [ "us_recent_deaths_*.csv";
    "*_deaths.csv";
    "deaths_*.csv";
    "mortality_*.csv";
    "*_mortality.csv" ].

(** The dict [state_patterns], in insertion order (the order in which
    [.items()] yields it). *)
Definition state_patterns : list (string * string) :=
  [
    ("alabama", "Alabama"); ("alaska", "Alaska"); ("arizona", "Arizona");
    ("arkansas", "Arkansas"); ("california", "California");
    ("colorado", "Colorado"); ("connecticut", "Connecticut");
    ("delaware", "Delaware"); ("florida", "Florida"); ("georgia", "Georgia");
    ("hawaii", "Hawaii"); ("idaho", "Idaho"); ("illinois", "Illinois");
    ("indiana", "Indiana"); ("iowa", "Iowa"); ("kansas", "Kansas");
    ("kentucky", "Kentucky"); ("louisiana", "Louisiana"); ("maine", "Maine");
    ("maryland", "Maryland"); ("massachusetts", "Massachusetts");
    ("michigan", "Michigan"); ("minnesota", "Minnesota");
    ("mississippi", "Mississippi"); ("missouri", "Missouri");
    ("montana", "Montana"); ("nebraska", "Nebraska"); ("nevada", "Nevada");
    ("newhampshire", "New Hampshire"); ("newjersey", "New Jersey");
    ("newmexico", "New Mexico"); ("newyork", "New York");
    ("northcarolina", "North Carolina"); ("northdakota", "North Dakota");
    ("ohio", "Ohio"); ("oklahoma", "Oklahoma"); ("oregon", "Oregon");
    ("pennsylvania", "Pennsylvania"); ("rhodeisland", "Rhode Island");
    ("southcarolina", "South Carolina"); ("southdakota", "South Dakota");
    ("tennessee", "Tennessee"); ("texas", "Texas"); ("utah", "Utah");
    ("vermont", "Vermont"); ("virginia", "Virginia");
    ("washington", "Washington"); ("westvirginia", "West Virginia");
    ("wisconsin", "Wisconsin"); ("wyoming", "Wyoming")
  ].

(** The loop [for pattern, state_name in ...: if pattern in basename:
    return state_name], falling through to ["Unknown"]. *)
Fixpoint first_state (items : list (string * string)) (basename : string)
  : string :=
  match items with
  | [] => "Unknown"
  | (pattern, state_name) :: items' =>
      if Py.contains pattern basename then state_name
      else first_state items' basename
  end.

Definition extract_state_from_filename (filename : string) : string :=
  let basename := Py.lower (NtPath.stem filename) in
  first_state state_patterns basename.

Section WithWorld.
Variable w : World.

(** The body of [find_state_csv_files] for a list of patterns. *)
Definition find_csv_files_matching (pats : list string)
  : M (list string) :=
  chdir w SCRAPE_A_GRAVE_PATH ;;
  csv_files <- for_fold pats []
                 (fun csv_files pattern =>
                    matches <- glob w pattern ;;
                    ret (csv_files ++ matches)%list) ;;
  let unique_files := set_iter w csv_files in
  here <- getcwd ;;
  ret (map (NtPath.abspath here) unique_files).

Definition find_state_csv_files : M (list string) :=
  find_csv_files_matching patterns.

Definition queue_add_cmd (csv_file_path : string) : string :=
  "npm run queue:add -- " ++ dquote ++ csv_file_path ++ dquote.

Definition transfer_csv_to_queue (csv_file_path : string) : M bool :=
  try_except
    (print ("📤 Adding " ++ NtPath.name csv_file_path
            ++ " to CTBAL queue...") ;;
     result <- subprocess_run w (queue_add_cmd csv_file_path)
                 CTBAL_PROJECT_PATH Strict ;;
     if (returncode result =? 0)%Z then
       let state := extract_state_from_filename csv_file_path in
       print ("✅ " ++ state ++ " CSV successfully queued") ;;
       print ("   " ++ Py.strip (stdout result)) ;;
       ret true
     else
       print ("❌ Failed to queue " ++ NtPath.name csv_file_path) ;;
       print ("   Error: " ++ Py.strip (stderr result)) ;;
       ret false)
    (fun e =>
       print ("❌ Error transferring " ++ NtPath.name csv_file_path
              ++ ": " ++ exn_str e) ;;
       ret false).

Definition batch_transfer_all_csvs : M unit :=
  print "🔍 Scanning for state mortality CSV files..." ;;
  csv_files <- find_state_csv_files ;;
  match csv_files with
  | [] => print "📭 No CSV files found in scrape-a-grave directory"
  | _ =>
    print ("📊 Found " ++ Py.str (Py.len csv_files) ++ " CSV file(s):") ;;
    for_each csv_files
      (fun csv_file =>
         let state := extract_state_from_filename csv_file in
         print ("   " ++ NtPath.name csv_file ++ " → " ++ state)) ;;
    print (nl ++ "🚀 Transferring " ++ Py.str (Py.len csv_files)
           ++ " files to CTBAL queue...") ;;
    success_count <- for_fold csv_files 0%Z
                       (fun success_count csv_file =>
                          ok <- transfer_csv_to_queue csv_file ;;
                          ret (if ok then (success_count + 1)%Z
                               else success_count)) ;;
    print (nl ++ "🎉 Transfer Summary:") ;;
    print ("   ✅ Successfully queued: " ++ Py.str success_count) ;;
    print ("   ❌ Failed: "
           ++ Py.str (Py.len csv_files - success_count)) ;;
    print ("   📊 Total files: " ++ Py.str (Py.len csv_files))
  end.

Definition show_queue_status : M bool :=
  try_except
    (print (nl ++ "📋 Checking CTBAL queue status...") ;;
     result <- subprocess_run w "npm run queue:status"
                 CTBAL_PROJECT_PATH Uncaptured ;;
     ret (returncode result =? 0)%Z)
    (fun e =>
       print ("❌ Error checking queue status: " ++ exn_str e) ;;
       ret false).

Definition process_queue : M bool :=
  try_except
    (print (nl ++ "🚀 Processing all queued CSV files...") ;;
     result <- subprocess_run w "npm run queue:process-all"
                 CTBAL_PROJECT_PATH Uncaptured ;;
     ret (returncode result =? 0)%Z)
    (fun e =>
       print ("❌ Error processing queue: " ++ exn_str e) ;;
       ret false).

Definition rule : string := "==================================================".

(** [main()], [argv] being [sys.argv]. *)
Definition main (argv : list string) : M unit :=
  match argv with
  | _ :: arg :: _ =>
      let command := Py.lower arg in
      if String.eqb command "transfer" then batch_transfer_all_csvs
      else if String.eqb command "status" then
        show_queue_status ;; ret tt
      else if String.eqb command "process" then
        process_queue ;; ret tt
      else if String.eqb command "full" then
        print "🔄 Full Pipeline: Transfer → Process" ;;
        batch_transfer_all_csvs ;;
        print (nl ++ rule) ;;
        show_queue_status ;;
        print (nl ++ rule) ;;
        process_queue ;;
        ret tt
      else
        print ("❌ Unknown command: " ++ command) ;;
        print "Available commands: transfer, status, process, full"
  | _ =>
      print "CTBAL-Scrape Integration Tool" ;;
      print "============================" ;;
      print "Commands:" ;;
      print "  transfer  - Transfer all CSV files to CTBAL queue" ;;
      print "  status    - Show CTBAL queue status" ;;
      print "  process   - Process all queued CSV files" ;;
      print "  full      - Transfer → Show Status → Process All" ;;
      print EmptyString ;;
      print "Usage: python ctbal-scrape-integration.py [command]" ;;
      print "Example: python ctbal-scrape-integration.py full"
  end.

End WithWorld.

End ScrapeIntegration.

(** ** scripts/add-processed-csvs-to-queue.py *)

Module AddProcessed.

Definition ctbal_project_path : string :=
  "c:\Users\djman\OneDrive\Documents\GitHub\ctbal".
Definition processed_csvs_path : string :=
  "c:\Users\djman\OneDrive\Documents\GitHub\scrape-a-grave\processed_csvs".

Definition states : list State :=
  [
    mkState "AL" "Alabama" "state_3";
    mkState "AK" "Alaska" "state_2";
    mkState "AZ" "Arizona" "state_5";
    mkState "AR" "Arkansas" "state_4";
    mkState "CA" "California" "state_6";
    mkState "CO" "Colorado" "state_7";
    mkState "CT" "Connecticut" "state_8";
    mkState "DE" "Delaware" "state_10";
    mkState "DC" "District of Columbia" "state_9";
    mkState "FL" "Florida" "state_11";
    mkState "GA" "Georgia" "state_12";
    mkState "HI" "Hawaii" "state_13";
    mkState "ID" "Idaho" "state_15";
    mkState "IL" "Illinois" "state_16";
    mkState "IN" "Indiana" "state_17";
    mkState "IA" "Iowa" "state_14";
    mkState "KS" "Kansas" "state_18";
    mkState "KY" "Kentucky" "state_19";
    mkState "LA" "Louisiana" "state_20";
    mkState "ME" "Maine" "state_22"
  ].

(** [csv_file.split('_')[0]] *)
Definition state_abbrev_of (csv_file : string) : string :=
  Py.split_head "_"%char csv_file.

(** [next((s for s in states if s['abbreviation'] == state_abbrev), None)] *)
Definition state_info_of (state_abbrev : string) : option State :=
  find (fun s => String.eqb (abbreviation s) state_abbrev) states.

(** [state_info['name'] if state_info else state_abbrev] *)
Definition state_name_of (csv_file : string) : string :=
  let state_abbrev := state_abbrev_of csv_file in
  match state_info_of state_abbrev with
  | Some state_info => name state_info
  | None => state_abbrev
  end.

Definition queue_add_cmd (csv_full_path : string) : string :=
  "npm run queue:add " ++ dquote ++ csv_full_path ++ dquote.

(** The test of the listing loop. *)
Definition is_processed_csv (file : string) : bool :=
  Py.endswith ".csv" file && Py.contains "_us_recent_deaths.csv" file.

Section WithWorld.
Variable w : World.

(** One turn of the dispatch loop, [try] and [except] included. *)
Definition add_one (success_count : Z) (csv_file : string) : M Z :=
  try_except
    (let state_abbrev := state_abbrev_of csv_file in
     let state_name := state_name_of csv_file in
     let csv_full_path := NtPath.join processed_csvs_path csv_file in
     print (nl ++ "📤 Adding " ++ state_name ++ " (" ++ state_abbrev
            ++ ") to CTBAL queue...") ;;
     print ("   File: " ++ csv_file) ;;
     result <- subprocess_run w (queue_add_cmd csv_full_path)
                 ctbal_project_path Replace ;;
     if (returncode result =? 0)%Z then
       print ("   ✅ " ++ state_name ++ " successfully added to queue") ;;
       ret (success_count + 1)%Z
     else
       print ("   ❌ Failed to add " ++ state_name) ;;
       (if Py.truthy (stderr result)
        then print ("   Error: " ++ Py.strip (stderr result))
        else ret tt) ;;
       ret success_count)
    (fun e =>
       print ("   ❌ Error processing " ++ csv_file ++ ": " ++ exn_str e) ;;
       ret success_count).

Definition add_processed_csvs_to_queue : M unit :=
  present <- path_exists w processed_csvs_path ;;
  if negb present then
    print ("❌ Processed CSVs directory not found: " ++ processed_csvs_path)
  else
    listing <- listdir w processed_csvs_path ;;
    let csv_files := filter is_processed_csv listing in
    print ("🔍 Found " ++ Py.str (Py.len csv_files)
           ++ " processed CSV files") ;;
    success_count <- for_fold (Py.sorted csv_files) 0%Z add_one ;;
    print (nl ++ "🎉 Transfer Summary:") ;;
    print ("   ✅ Successfully queued: " ++ Py.str success_count) ;;
    print ("   ❌ Failed: "
           ++ Py.str (Py.len csv_files - success_count)) ;;
    print ("   📊 Total files: " ++ Py.str (Py.len csv_files)).

End WithWorld.

End AddProcessed.

(** ** scripts/add-all-new-csvs.py *)

Module AddAllNew.

(** The module-level table; [main] never consults it. *)
Definition states : list State :=
  [
    mkState "AL" "Alabama" "state_3";
    mkState "AK" "Alaska" "state_2";
    mkState "AZ" "Arizona" "state_5";
    mkState "AR" "Arkansas" "state_4";
    mkState "CA" "California" "state_6";
    mkState "CO" "Colorado" "state_7";
    mkState "CT" "Connecticut" "state_8";
    mkState "DE" "Delaware" "state_10";
    mkState "DC" "District of Columbia" "state_9";
    mkState "FL" "Florida" "state_11";
    mkState "GA" "Georgia" "state_12";
    mkState "HI" "Hawaii" "state_13";
    mkState "ID" "Idaho" "state_15";
    mkState "IL" "Illinois" "state_16";
    mkState "IN" "Indiana" "state_17";
    mkState "IA" "Iowa" "state_14";
    mkState "KS" "Kansas" "state_18";
    mkState "KY" "Kentucky" "state_19";
    mkState "LA" "Louisiana" "state_20";
    mkState "ME" "Maine" "state_22";
    mkState "MD" "Maryland" "state_23";
    mkState "MA" "Massachusetts" "state_21";
    mkState "MI" "Michigan" "state_24";
    mkState "MN" "Minnesota" "state_25";
    mkState "MS" "Mississippi" "state_27";
    mkState "MO" "Missouri" "state_26";
    mkState "MT" "Montana" "state_28";
    mkState "NE" "Nebraska" "state_31";
    mkState "NV" "Nevada" "state_35";
    mkState "NH" "New Hampshire" "state_32";
    mkState "NJ" "New Jersey" "state_33";
    mkState "NM" "New Mexico" "state_34";
    mkState "NY" "New York" "state_36";
    mkState "NC" "North Carolina" "state_29";
    mkState "ND" "North Dakota" "state_30";
    mkState "OH" "Ohio" "state_37";
    mkState "OK" "Oklahoma" "state_38";
    mkState "OR" "Oregon" "state_39";
    mkState "PA" "Pennsylvania" "state_40";
    mkState "PR" "Puerto Rico" "state_41";
    mkState "RI" "Rhode Island" "state_42";
    mkState "SC" "South Carolina" "state_43";
    mkState "SD" "South Dakota" "state_44";
    mkState "TN" "Tennessee" "state_45";
    mkState "TX" "Texas" "state_46";
    mkState "UT" "Utah" "state_47";
    mkState "VT" "Vermont" "state_49";
    mkState "VI" "Virgin Islands, U.S." "country_273";
    mkState "VA" "Virginia" "state_48";
    mkState "WA" "Washington" "state_50";
    mkState "WV" "West Virginia" "state_52";
    mkState "WI" "Wisconsin" "state_51";
    mkState "WY" "Wyoming" "state_53";
    mkState "NYC" "New York City" "state_56";
    mkState "AS" "American Samoa" "state_57";
    mkState "GU" "Guam" "state_58";
    mkState "MP" "Northern Mariana Islands" "state_59";
    mkState "UM" "United States Minor Outlying Islands" "state_61"
  ].

Definition processed_csvs_dir : string :=
  "C:\Users\djman\OneDrive\Documents\GitHub\scrape-a-grave\processed_csvs".

Definition queue_add_cmd (csv_file_path : string) : string :=
  "npm run queue:add -- " ++ dquote ++ csv_file_path ++ dquote.

(** [filename.split('_')[0] if '_' in filename else 'UNK'] *)
Definition state_abbrev_of (filename : string) : string :=
  if Py.has_char "_"%char filename
  then Py.split_head "_"%char filename
  else "UNK".

Section WithWorld.
Variable w : World.

Definition add_csv_to_queue (csv_file_path state_abbrev : string)
  : M bool :=
  try_except
    (here <- getcwd ;;
     result <- subprocess_run w (queue_add_cmd csv_file_path) here
                 Replace ;;
     if (returncode result =? 0)%Z then
       print ("✅ " ++ state_abbrev ++ ": Added to queue successfully") ;;
       ret true
     else
       print ("❌ " ++ state_abbrev ++ ": Failed to add to queue") ;;
       (if Py.truthy (stderr result)
        then print ("   Error: " ++ Py.strip (stderr result))
        else ret tt) ;;
       ret false)
    (fun e =>
       print ("❌ " ++ state_abbrev ++ ": Exception occurred - "
              ++ exn_str e) ;;
       ret false).

(** One turn of the loop of [main] over the counters
    [(added_count, failed_count)]. *)
Definition process_one (counts : Z * Z) (csv_file : string) : M (Z * Z) :=
  let (added_count, failed_count) := counts in
  let filename := NtPath.basename csv_file in
  let state_abbrev := state_abbrev_of filename in
  print (nl ++ "🔄 Processing: " ++ filename) ;;
  ok <- add_csv_to_queue csv_file state_abbrev ;;
  ret (if ok then ((added_count + 1)%Z, failed_count)
       else (added_count, (failed_count + 1)%Z)).

Definition main : M unit :=
  print "🚀 Adding all processed CSV files to CTBAL queue..." ;;
  print ("📂 Searching directory: " ++ processed_csvs_dir) ;;
  let csv_pattern := NtPath.join processed_csvs_dir "*.csv" in
  csv_files <- glob w csv_pattern ;;
  print ("📋 Found " ++ Py.str (Py.len csv_files) ++ " CSV files") ;;
  counts <- for_fold (Py.sorted csv_files) (0%Z, 0%Z) process_one ;;
  let (added_count, failed_count) := counts in
  print (nl ++ "🎉 Processing complete!") ;;
  print ("   ✅ Successfully added: " ++ Py.str added_count) ;;
  print ("   ❌ Failed to add: " ++ Py.str failed_count) ;;
  print ("   📊 Total processed: "
         ++ Py.str (added_count + failed_count)) ;;
  if (0 <? added_count)%Z then
    print (nl ++ "💡 Run 'npm run queue:status' to see updated queue") ;;
    print "💡 Run 'npm run queue:process-all' to deploy all to blockchain"
  else ret tt.

End WithWorld.

End AddAllNew.

(** ** Observing a run *)

(** For a caller that cannot fail on the output of the child, a dispatch
    counts as a success exactly when the command exited with status zero. *)
Definition succeeded (o : Outcome) : bool :=
  match o with
  | Exited r => (returncode r =? 0)%Z
  | Undecodable r _ => (returncode r =? 0)%Z
  | CannotStart _ => false
  end.

(** For [ScrapeIntegration.transfer_csv_to_queue], which decodes strictly,
    the output must be valid text as well. *)
Definition transferred (o : Outcome) : bool :=
  match o with
  | Exited r => (returncode r =? 0)%Z
  | Undecodable _ _ => false
  | CannotStart _ => false
  end.

(** The outcomes the world gives to a sequence of invocations issued one
    after the other, after [hist]. *)
Fixpoint outcomes (w : World) (hist invs : list Invocation) : list Outcome :=
  match invs with
  | [] => []
  | i :: invs' => spawn w hist i :: outcomes w (hist ++ [i]) invs'
  end.

Definition count_ok (os : list Outcome) : Z :=
  Z.of_nat (List.length (filter succeeded os)).

Definition count_failed (os : list Outcome) : Z :=
  Z.of_nat (List.length (filter (fun o => negb (succeeded o)) os)).

Definition count_transferred (os : list Outcome) : Z :=
  Z.of_nat (List.length (filter transferred os)).

Definition count_untransferred (os : list Outcome) : Z :=
  Z.of_nat (List.length (filter (fun o => negb (transferred o)) os)).

(** The order of [sorted]. *)
Definition str_le (a b : string) : Prop := String.leb a b = true.

(** The rows of a dict that come before the key [key]. *)
Fixpoint preceding (key : string) (items : list (string * string))
  : list (string * string) :=
  match items with
  | [] => []
  | (k, v) :: items' =>
      if String.eqb k key then [] else (k, v) :: preceding key items'
  end.

(** A pattern without a directory part. *)
Definition bare (pat : string) : Prop := fst (NtPath.split pat) = EmptyString.

(** What [ScrapeIntegration.find_state_csv_files] returns when the scrape
    directory lists [entries]. *)
Definition located (w : World) (entries pats : list string) : list string :=
  map (NtPath.abspath ScrapeIntegration.SCRAPE_A_GRAVE_PATH)
      (set_iter w (flat_map (Glob.glob1 entries) pats)).

(** The invocation [ScrapeIntegration.transfer_csv_to_queue] issues. *)
Definition transfer_invocation (csv_file_path : string) : Invocation :=
  mkInvocation (ScrapeIntegration.queue_add_cmd csv_file_path)
               ScrapeIntegration.CTBAL_PROJECT_PATH.

(** The closing block of [ScrapeIntegration.batch_transfer_all_csvs] and of
    [AddProcessed.add_processed_csvs_to_queue], for the three numbers it
    prints. *)
Definition transfer_summary (s f t : Z) : list string :=
  [ nl ++ "🎉 Transfer Summary:";
    "   ✅ Successfully queued: " ++ Py.str s;
    "   ❌ Failed: " ++ Py.str f;
    "   📊 Total files: " ++ Py.str t ].

(** The closing block of [AddAllNew.main]. *)
Definition processing_summary (s f t : Z) : list string :=
  [ nl ++ "🎉 Processing complete!";
    "   ✅ Successfully added: " ++ Py.str s;
    "   ❌ Failed to add: " ++ Py.str f;
    "   📊 Total processed: " ++ Py.str t ].

(** The invocation [AddAllNew.add_csv_to_queue] issues when the process is
    in directory [here]. *)
Definition add_invocation (here csv_file_path : string) : Invocation :=
  mkInvocation (AddAllNew.queue_add_cmd csv_file_path) here.

(** What the [glob] of [AddAllNew.main] returns. *)
Definition new_csv_files (w : World) : list string :=
  map (NtPath.join AddAllNew.processed_csvs_dir)
      (Glob.glob1 (entries_of w AddAllNew.processed_csvs_dir) "*.csv").

(** The invocation [AddProcessed.add_processed_csvs_to_queue] issues for an
    entry of the processed directory. *)
Definition processed_invocation (csv_file : string) : Invocation :=
  mkInvocation
    (AddProcessed.queue_add_cmd
       (NtPath.join AddProcessed.processed_csvs_path csv_file))
    AddProcessed.ctbal_project_path.

(** A computation that leaves the current directory of the process alone. *)
Definition keeps_cwd {A} (m : M A) : Prop :=
  forall st, cwd (snd (m st)) = cwd st.

(** ** Sample worlds *)

(** Two admissible iteration orders of a set. *)
Definition first_seen (xs : list string) : list string := nodup string_dec xs.

Definition last_seen_first (xs : list string) : list string :=
  rev (nodup string_dec xs).

Definition sample_scrape_entries : list string :=
  [ "AL_deaths.csv"; "TX_deaths.csv"; "us_recent_deaths_FL_deaths.csv";
    "notes.txt" ].

Definition sample_processed_entries : list string :=
  [ "TX_20251118_210530_us_recent_deaths.csv";
    "FL_20251118_210521_us_recent_deaths.csv";
    "AL_20251118_210501_us_recent_deaths.csv";
    "readme.md" ].

Definition sample_fs (p : string) : option Node :=
  if String.eqb p ScrapeIntegration.SCRAPE_A_GRAVE_PATH
  then Some (Dir sample_scrape_entries)
  else if String.eqb p AddProcessed.processed_csvs_path
          || String.eqb p AddAllNew.processed_csvs_dir
  then Some (Dir sample_processed_entries)
  else None.

(** The command cannot be started for the Texas file and exits with status
    zero for every other file. *)
Definition sample_spawn (hist : list Invocation) (inv : Invocation) : Outcome :=
  if Py.contains "TX_" (inv_cmd inv)
  then CannotStart "[WinError 267] The directory name is invalid"
  else Exited (mkCompleted 0 "queued" EmptyString).

Definition sample_world : World := mkWorld sample_fs sample_spawn first_seen.

Definition sample_world_reversed : World :=
  mkWorld sample_fs sample_spawn last_seen_first.

(** A machine on which none of the configured directories exists. *)
Definition bare_world : World :=
  mkWorld (fun _ => None) sample_spawn first_seen.

(** A machine on which the configured directories exist and are empty. *)
Definition empty_dirs_world : World :=
  mkWorld (fun _ => Some (Dir [])) sample_spawn first_seen.


(** A process started from the user's home directory. *)
Definition sample_proc : Proc := mkProc "C:\Users\djman" [] [].

(** ** The other commands of [ctbal-scrape-integration.py] *)

(** The invocations of [show_queue_status] and of [process_queue]. *)
Definition status_invocation : Invocation :=
  mkInvocation "npm run queue:status" ScrapeIntegration.CTBAL_PROJECT_PATH.

Definition process_invocation : Invocation :=
  mkInvocation "npm run queue:process-all" ScrapeIntegration.CTBAL_PROJECT_PATH.

(** The four words [main] acts upon. *)
Definition is_command (command : string) : bool :=
  String.eqb command "transfer" || String.eqb command "status"
  || String.eqb command "process" || String.eqb command "full".

(** An argument vector that selects none of them: no argument at all, or a
    first argument that is not a command once lower-cased. *)
Definition selects_nothing (argv : list string) : Prop :=
  match argv with
  | _ :: arg :: _ => is_command (Py.lower arg) = false
  | _ => True
  end.

(** The two closing lines of [AddAllNew.main]. *)
Definition hint_lines : list string :=
  [ nl ++ "💡 Run 'npm run queue:status' to see updated queue";
    "💡 Run 'npm run queue:process-all' to deploy all to blockchain" ].

(** A printed line that is neither of them. *)
Definition plain (line : string) : Prop := ~ In line hint_lines.

Example py_ex :
  Py.lower "FL_2025.CSV" = "fl_2025.csv"
  /\ Py.strip ("  a b " ++ nl) = "a b"
  /\ Py.str 0 = "0" /\ Py.str 12 = "12" /\ Py.str (-3) = "-3"
  /\ Py.sorted ["b"; "a"; "B"] = ["B"; "a"; "b"]
  /\ Py.split_head "_"%char "FL_2025_x.csv" = "FL"
  /\ Py.split_head "_"%char "mystery.csv" = "mystery.csv"
  /\ Py.contains "virginia" "westvirginia_deaths" = true
  /\ Py.endswith ".csv" "a.csv.bak" = false.
Proof. repeat split. Qed.
Example strip_unicode_ex :
  Py.strip (String (ascii_of_nat 194) (String (ascii_of_nat 160)
              ("a b " ++ String (ascii_of_nat 226) (String (ascii_of_nat 128)
                                   (String (ascii_of_nat 168) EmptyString)))))
  = "a b"
  /\ Py.strip "é " = "é".
Proof. repeat split. Qed.
Example name_ex :
  NtPath.name "c:\Users\djman\scrape-a-grave\TX_deaths.csv" = "TX_deaths.csv"
  /\ NtPath.stem "c:\Users\djman\scrape-a-grave\TX_deaths.csv" = "TX_deaths"
  /\ NtPath.stem "a/b/.hidden" = ".hidden"
  /\ NtPath.stem "x.tar.gz" = "x.tar"
  /\ NtPath.stem "x." = "x."
  /\ NtPath.basename "c:\a\b.csv" = "b.csv"
  /\ NtPath.split "c:\a\b\*.csv" = ("c:\a\b", "*.csv")
  /\ NtPath.split "*_deaths.csv" = (EmptyString, "*_deaths.csv")
  /\ NtPath.join "c:\a" "b.csv" = "c:\a\b.csv"
  /\ NtPath.join "c:\" "b.csv" = "c:\b.csv".
Proof. repeat split. Qed.
Example fnmatch_ex :
  Glob.fnmatch "TX_deaths.csv" "*_deaths.csv" = true
  /\ Glob.fnmatch "TX_DEATHS.CSV" "*_deaths.csv" = true
  /\ Glob.fnmatch "us_recent_deaths_x.csv" "us_recent_deaths_*.csv" = true
  /\ Glob.fnmatch "TX_deaths.csv.bak" "*_deaths.csv" = false.
Proof. repeat split. Qed.

(** * Properties *)

(** ** Strings *)

Lemma prefix_app (n q : string) : String.prefix n (n ++ q) = true.
Proof.
  induction n as [|c n IH]; simpl.
  - destruct q; reflexivity.
  - destruct (ascii_dec c c) as [_|ne]; [exact IH | contradiction].
Qed.

Lemma prefix_inv (n h : string) :
  String.prefix n h = true -> exists q, h = n ++ q.
Proof.
  revert h; induction n as [|c n IH]; intros h H.
  - exists h; reflexivity.
  - destruct h as [|d h]; simpl in H; [discriminate|].
    destruct (ascii_dec c d) as [->|ne]; [|discriminate].
    destruct (IH _ H) as [q ->]. exists q; reflexivity.
Qed.

Lemma append_assoc (a b c : string) : (a ++ b) ++ c = a ++ b ++ c.
Proof. induction a as [|x a IH]; simpl; [reflexivity | now rewrite IH]. Qed.

Lemma append_inj_l (a x y : string) : a ++ x = a ++ y -> x = y.
Proof.
  induction a as [|c a IH]; simpl; intros H; [exact H|].
  injection H as H. auto.
Qed.

Lemma contains_eq (n h : string) :
  Py.contains n h =
  if String.prefix n h then true
  else match h with
       | EmptyString => false
       | String _ h' => Py.contains n h'
       end.
Proof. destruct h; reflexivity. Qed.

Lemma contains_app (n p q : string) : Py.contains n (p ++ n ++ q) = true.
Proof.
  induction p as [|c p IH]; rewrite contains_eq.
  - change (EmptyString ++ n ++ q) with (n ++ q). now rewrite prefix_app.
  - change (String c p ++ n ++ q) with (String c (p ++ n ++ q)).
    destruct (String.prefix n _); [reflexivity | exact IH].
Qed.

Lemma contains_inv (n h : string) :
  Py.contains n h = true -> exists p q, h = p ++ n ++ q.
Proof.
  induction h as [|c h IH]; rewrite contains_eq; intros H.
  - destruct (String.prefix n EmptyString) eqn:E; [|discriminate].
    apply prefix_inv in E. destruct E as [q E]. now exists EmptyString, q.
  - destruct (String.prefix n (String c h)) eqn:E.
    + apply prefix_inv in E. destruct E as [q E]. now exists EmptyString, q.
    + destruct (IH H) as (p & q & ->). now exists (String c p), q.
Qed.

(** [a in b] and [b in c] give [a in c]. *)
Lemma contains_trans (a b c : string) :
  Py.contains a b = true -> Py.contains b c = true -> Py.contains a c = true.
Proof.
  intros Hab Hbc.
  apply contains_inv in Hab. destruct Hab as (p & q & ->).
  apply contains_inv in Hbc. destruct Hbc as (p' & q' & ->).
  replace (p' ++ (p ++ a ++ q) ++ q') with ((p' ++ p) ++ a ++ (q ++ q')).
  - apply contains_app.
  - now rewrite !append_assoc.
Qed.

Lemma split_head_app (sep : ascii) (a rest : string) :
  Py.has_char sep a = false ->
  Py.split_head sep (a ++ String sep rest) = a.
Proof.
  induction a as [|c a IH]; simpl; intros H.
  - now rewrite Ascii.eqb_refl.
  - apply orb_false_iff in H. destruct H as [H1 H2].
    rewrite Ascii.eqb_sym, H1. now rewrite IH.
Qed.


(** ** Resolving a file name to a state *)

Section Resolution.
Import ScrapeIntegration.

Lemma first_state_skip (l1 l2 : list (string * string)) (b : string) :
  (forall k v, In (k, v) l1 -> Py.contains k b = false) ->
  first_state (l1 ++ l2) b = first_state l2 b.
Proof.
  induction l1 as [|[k v] l1 IH]; intros H; simpl; [reflexivity|].
  rewrite (H k v (or_introl eq_refl)).
  apply IH. intros k' v' Hin. apply (H k' v'). now right.
Qed.

(** The scan returns the value of the first row whose key occurs in the
    stem, and ["Unknown"] when no key occurs. *)
Lemma first_state_cases (items : list (string * string)) (b : string) :
  (exists l1 k v l2,
      items = (l1 ++ (k, v) :: l2)%list
      /\ (forall k' v', In (k', v') l1 -> Py.contains k' b = false)
      /\ Py.contains k b = true
      /\ first_state items b = v)
  \/ ((forall k v, In (k, v) items -> Py.contains k b = false)
      /\ first_state items b = "Unknown").
Proof.
  induction items as [|[k v] items IH]; simpl.
  - right. split; [intros k v [] | reflexivity].
  - destruct (Py.contains k b) eqn:E.
    + left. exists [], k, v, items. repeat split; try assumption.
      intros k' v' [].
    + destruct IH as [(l1 & k1 & v1 & l2 & -> & Hno & Hk & Hv) | [Hno Hv]].
      * left. exists ((k, v) :: l1), k1, v1, l2. repeat split; try assumption.
        intros k' v' [Heq | Hin]; [now inversion Heq; subst | eauto].
      * right. split; [|assumption].
        intros k' v' [Heq | Hin]; [now inversion Heq; subst | eauto].
Qed.

Lemma first_state_unknown (items : list (string * string)) (b : string) :
  (forall k v, In (k, v) items -> v <> "Unknown") ->
  (first_state items b = "Unknown"
   <-> forall k v, In (k, v) items -> Py.contains k b = false).
Proof.
  intros Hval. split.
  - destruct (first_state_cases items b)
      as [(l1 & k & v & l2 & Heq & _ & _ & Hv) | [Hno _]]; [|auto].
    intros Hu. exfalso. apply (Hval k v).
    + rewrite Heq. apply in_or_app. right. now left.
    + congruence.
  - intros Hno. rewrite <- (app_nil_r items).
    now rewrite first_state_skip.
Qed.

Lemma state_patterns_values (k v : string) :
  In (k, v) state_patterns -> v <> "Unknown".
Proof.
  intros Hin Hv. subst v.
  assert (forallb (fun kv => negb (String.eqb (snd kv) "Unknown"))
                  state_patterns = true) as Hall by reflexivity.
  rewrite forallb_forall in Hall. specialize (Hall _ Hin).
  simpl in Hall. discriminate.
Qed.

Lemma state_patterns_split :
  state_patterns =
  (preceding "virginia" state_patterns
     ++ ("virginia", "Virginia")
     :: [("washington", "Washington"); ("westvirginia", "West Virginia");
         ("wisconsin", "Wisconsin"); ("wyoming", "Wyoming")])%list.
Proof. reflexivity. Qed.

Lemma westvirginia_has_virginia (b : string) :
  Py.contains "westvirginia" b = true -> Py.contains "virginia" b = true.
Proof. apply contains_trans. reflexivity. Qed.

(** No file name is ever labelled West Virginia. *)
Lemma never_west_virginia (filename : string) :
  extract_state_from_filename filename <> "West Virginia".
Proof.
  unfold extract_state_from_filename.
  set (b := Py.lower (NtPath.stem filename)).
  cbv beta iota delta [first_state state_patterns].
  repeat match goal with
         | |- (if Py.contains ?k b then _ else _) <> _ =>
             destruct (Py.contains k b) eqn:?; [discriminate|]
         end.
  destruct (Py.contains "westvirginia" b) eqn:Hwv.
  - apply westvirginia_has_virginia in Hwv. congruence.
  - repeat match goal with
           | |- (if Py.contains ?k b then _ else _) <> _ =>
               destruct (Py.contains k b) eqn:?; [discriminate|]
           end.
    discriminate.
Qed.

End Resolution.

(** ** Runs of the process *)

Ltac run_steps :=
  cbv [bind print ret raise try_except subprocess_run getcwd path_exists];
  cbn [cwd printed spawned].

Lemma for_each_print {A} (g : A -> string) (xs : list A) (st : Proc) :
  for_each xs (fun x => print (g x)) st
  = (Ok tt, mkProc (cwd st) (printed st ++ map g xs) (spawned st)).
Proof.
  revert st; induction xs as [|x xs IH]; intros st; simpl.
  - unfold ret. rewrite app_nil_r. now destruct st.
  - unfold bind at 1. unfold print at 1. rewrite IH. cbn [cwd printed spawned].
    now rewrite <- app_assoc.
Qed.

Lemma count_ok_cons (o : Outcome) (os : list Outcome) :
  count_ok (o :: os) = ((if succeeded o then 1 else 0) + count_ok os)%Z.
Proof.
  unfold count_ok. cbn [filter].
  destruct (succeeded o); cbn [List.length]; lia.
Qed.

Lemma count_ok_failed (os : list Outcome) :
  (count_ok os + count_failed os)%Z = Py.len os.
Proof.
  unfold count_ok, count_failed, Py.len.
  induction os as [|o os IH]; cbn [filter List.length]; [reflexivity|].
  destruct (succeeded o); cbn [negb List.length]; lia.
Qed.

Lemma outcomes_length (w : World) (invs hist : list Invocation) :
  List.length (outcomes w hist invs) = List.length invs.
Proof.
  revert hist; induction invs as [|i invs IH]; intros hist; simpl; auto.
Qed.

Lemma count_transferred_cons (o : Outcome) (os : list Outcome) :
  count_transferred (o :: os)
  = ((if transferred o then 1 else 0) + count_transferred os)%Z.
Proof.
  unfold count_transferred. cbn [filter].
  destruct (transferred o); cbn [List.length]; lia.
Qed.

Lemma count_transferred_total (os : list Outcome) :
  (count_transferred os + count_untransferred os)%Z = Py.len os.
Proof.
  unfold count_transferred, count_untransferred, Py.len.
  induction os as [|o os IH]; cbn [filter List.length]; [reflexivity|].
  destruct (transferred o); cbn [negb List.length]; lia.
Qed.

Section ScrapeRuns.
Import ScrapeIntegration.
Variable w : World.

Lemma transfer_csv_to_queue_run (f : string) (st : Proc) :
  exists lines,
    transfer_csv_to_queue w f st
    = (Ok (transferred (spawn w (spawned st) (transfer_invocation f))),
       mkProc (cwd st) (printed st ++ lines)
              (spawned st ++ [transfer_invocation f]))
    /\ (forall r, spawn w (spawned st) (transfer_invocation f) = Exited r ->
                  returncode r <> 0%Z ->
                  In ("   Error: " ++ Py.strip (stderr r)) lines)
    /\ (forall msg, spawn w (spawned st) (transfer_invocation f)
                    = CannotStart msg ->
                    In ("❌ Error transferring " ++ NtPath.name f ++ ": " ++ msg)
                       lines)
    /\ (forall r msg, spawn w (spawned st) (transfer_invocation f)
                      = Undecodable r msg ->
                      In ("❌ Error transferring " ++ NtPath.name f ++ ": "
                          ++ msg) lines).
Proof.
  unfold transfer_csv_to_queue. run_steps.
  fold (transfer_invocation f).
  destruct (spawn w (spawned st) (transfer_invocation f)) as [r|r msg|msg] eqn:E.
  - cbn [transferred].
    destruct (returncode r =? 0)%Z eqn:Erc; cbn [cwd printed spawned].
    + eexists. split; [rewrite <- !app_assoc; reflexivity|].
      split; [|split; discriminate].
      intros r' Hr' Hne. injection Hr' as <-. apply Z.eqb_eq in Erc.
      contradiction.
    + eexists. split; [rewrite <- !app_assoc; reflexivity|].
      split; [|split; discriminate].
      intros r' Hr' _. injection Hr' as <-. simpl. auto.
  - cbn [transferred cwd printed spawned exn_str].
    eexists. split; [rewrite <- !app_assoc; reflexivity|].
    split; [discriminate|]. split; [discriminate|].
    intros r' msg' Hm. injection Hm as _ <-. simpl. auto.
  - cbn [transferred cwd printed spawned exn_str].
    eexists. split; [rewrite <- !app_assoc; reflexivity|].
    split; [discriminate|]. split; [|discriminate].
    intros msg' Hm. injection Hm as <-. simpl. auto.
Qed.

Lemma transfer_loop (files : list string) (st : Proc) (cnt : Z) :
  exists lines,
    for_fold files cnt
      (fun success_count csv_file =>
         ok <- transfer_csv_to_queue w csv_file ;;
         ret (if ok then (success_count + 1)%Z else success_count)) st
    = (Ok (cnt + count_transferred (outcomes w (spawned st)
                                      (map transfer_invocation files)))%Z,
       mkProc (cwd st) (printed st ++ lines)
              (spawned st ++ map transfer_invocation files)).
Proof.
  revert st cnt; induction files as [|f files IH]; intros st cnt.
  - exists []. simpl. unfold ret, count_transferred. simpl.
    rewrite Z.add_0_r, !app_nil_r. now destruct st.
  - destruct (transfer_csv_to_queue_run f st) as (l1 & Hrun & _).
    cbn [for_fold]. unfold bind at 1. unfold bind at 1. rewrite Hrun.
    unfold ret at 1.
    match goal with
    | |- context [for_fold files ?c _ ?s] => destruct (IH s c) as (l2 & ->)
    end.
    cbn [cwd printed spawned map outcomes].
    exists (l1 ++ l2)%list. rewrite count_transferred_cons, <- !app_assoc.
    cbn [app]. f_equal. f_equal.
    destruct (transferred _); lia.
Qed.

End ScrapeRuns.

(** ** Locating the files *)

Lemma cut_last_sep_no_head (s t : string) :
  NtPath.cut_last_sep s = (EmptyString, t) -> t = s.
Proof.
  destruct s as [|c s]; simpl.
  - now intros [= <-].
  - destruct (NtPath.has_sep s).
    + destruct (NtPath.cut_last_sep s). discriminate.
    + destruct (NtPath.is_sep c); [discriminate | now intros [= <-]].
Qed.

Lemma append_empty (a b : string) :
  a ++ b = EmptyString -> a = EmptyString /\ b = EmptyString.
Proof. destruct a; simpl; [auto | discriminate]. Qed.

Lemma split_bare (p : string) : bare p -> NtPath.split p = (EmptyString, p).
Proof.
  unfold bare, NtPath.split.
  destruct (NtPath.splitdrive p) as [d rest] eqn:Ed.
  destruct (NtPath.cut_last_sep rest) as [h t] eqn:Ec.
  cbn [fst]. intros H. apply append_empty in H. destruct H as [-> Hh].
  assert (rest = p) as ->.
  { unfold NtPath.splitdrive in Ed.
    destruct p as [|c [|c' p]]; try now injection Ed as <-.
    destruct (Ascii.eqb_spec c' ":"%char) as [->|ne].
    - discriminate.
    - destruct c' as [[] [] [] [] [] [] [] []]; try now injection Ed as <-.
      now contradiction ne. }
  assert (h = EmptyString) as ->.
  { destruct (NtPath.rstrip_seps h); [assumption | discriminate]. }
  apply cut_last_sep_no_head in Ec. subst t. reflexivity.
Qed.

Lemma glob_bare (w : World) (p : string) (st : Proc) :
  bare p -> glob w p st = (Ok (Glob.glob1 (entries_of w (cwd st)) p), st).
Proof. intros Hp. unfold glob. now rewrite (split_bare p Hp). Qed.

Lemma glob_loop (w : World) (pats : list string) (st : Proc)
      (acc : list string) :
  Forall bare pats ->
  for_fold pats acc
    (fun csv_files pattern =>
       matches <- glob w pattern ;; ret (csv_files ++ matches)%list) st
  = (Ok (acc ++ flat_map (Glob.glob1 (entries_of w (cwd st))) pats)%list, st).
Proof.
  intros Hb. revert acc. induction Hb as [|p pats Hp _ IH]; intros acc.
  - simpl. unfold ret. now rewrite app_nil_r.
  - cbn [for_fold flat_map]. unfold bind at 1. unfold bind at 1.
    rewrite (glob_bare w p st Hp). unfold ret at 1.
    rewrite IH. now rewrite <- app_assoc.
Qed.

Lemma patterns_bare : Forall bare ScrapeIntegration.patterns.
Proof. repeat constructor. Qed.

Section Locate.
Import ScrapeIntegration.
Variable w : World.

Lemma find_csv_files_matching_run (pats es : list string) (st : Proc) :
  fs w SCRAPE_A_GRAVE_PATH = Some (Dir es) ->
  Forall bare pats ->
  find_csv_files_matching w pats st
  = (Ok (located w es pats),
     mkProc SCRAPE_A_GRAVE_PATH (printed st) (spawned st)).
Proof.
  intros Hfs Hb. unfold find_csv_files_matching, chdir.
  unfold bind at 1. rewrite Hfs.
  unfold bind at 1. rewrite (glob_loop w pats _ [] Hb).
  cbn [cwd app]. unfold bind, getcwd, ret. cbn [cwd].
  unfold located, entries_of. now rewrite Hfs.
Qed.

Lemma find_csv_files_matching_missing (pats : list string) (st : Proc) :
  fs w SCRAPE_A_GRAVE_PATH = None ->
  find_csv_files_matching w pats st
  = (Raised (FileNotFoundError SCRAPE_A_GRAVE_PATH), st).
Proof.
  intros Hfs. unfold find_csv_files_matching, chdir.
  unfold bind at 1. now rewrite Hfs.
Qed.

Lemma abspath_scrape (f : string) :
  NtPath.abspath SCRAPE_A_GRAVE_PATH f
  = SCRAPE_A_GRAVE_PATH ++ NtPath.sep ++ f.
Proof. reflexivity. Qed.

Lemma abspath_scrape_inj (f g : string) :
  NtPath.abspath SCRAPE_A_GRAVE_PATH f = NtPath.abspath SCRAPE_A_GRAVE_PATH g ->
  f = g.
Proof.
  rewrite !abspath_scrape. intros H.
  apply append_inj_l in H. now apply append_inj_l in H.
Qed.

Lemma located_NoDup (es pats : list string) :
  set_iter_ok w -> NoDup (located w es pats).
Proof.
  intros Hset. unfold located.
  apply Finite.Injective_map_NoDup.
  - intros f g. apply abspath_scrape_inj.
  - apply Hset.
Qed.

Lemma located_In (es pats : list string) (n : string) :
  set_iter_ok w ->
  (In (NtPath.abspath SCRAPE_A_GRAVE_PATH n) (located w es pats)
   <-> exists p, In p pats /\ In n (Glob.glob1 es p)).
Proof.
  intros Hset. unfold located. rewrite in_map_iff.
  destruct (Hset (flat_map (Glob.glob1 es) pats)) as [_ Hiff].
  split.
  - intros (m & Heq & Hin). apply abspath_scrape_inj in Heq. subst m.
    apply (proj1 (Hiff n)) in Hin. apply in_flat_map in Hin. exact Hin.
  - intros Hex. exists n. split; [reflexivity|].
    apply (proj2 (Hiff n)). apply in_flat_map. exact Hex.
Qed.

End Locate.

(** ** The batch of [ctbal-scrape-integration.py] *)

Lemma bind_ok {A B} (m : M A) (k : A -> M B) (st st' : Proc) (a : A) :
  m st = (Ok a, st') -> bind m k st = k a st'.
Proof. intros H. unfold bind. now rewrite H. Qed.

Lemma bind_raised {A B} (m : M A) (k : A -> M B) (st st' : Proc) (e : Exn) :
  m st = (Raised e, st') -> bind m k st = (Raised e, st').
Proof. intros H. unfold bind. now rewrite H. Qed.

Lemma print_run (line : string) (st : Proc) :
  print line st
  = (Ok tt, mkProc (cwd st) (printed st ++ [line]) (spawned st)).
Proof. reflexivity. Qed.

Lemma failed_count {A} (w : World) (hist : list Invocation)
      (f : A -> Invocation) (xs : list A) :
  (Py.len xs - count_ok (outcomes w hist (map f xs)))%Z
  = count_failed (outcomes w hist (map f xs)).
Proof.
  pose proof (count_ok_failed (outcomes w hist (map f xs))) as H.
  unfold Py.len in *. rewrite outcomes_length, length_map in H. lia.
Qed.

Lemma untransferred_count {A} (w : World) (hist : list Invocation)
      (f : A -> Invocation) (xs : list A) :
  (Py.len xs - count_transferred (outcomes w hist (map f xs)))%Z
  = count_untransferred (outcomes w hist (map f xs)).
Proof.
  pose proof (count_transferred_total (outcomes w hist (map f xs))) as H.
  unfold Py.len in *. rewrite outcomes_length, length_map in H. lia.
Qed.

Section ScrapeBatch.
Import ScrapeIntegration.
Variable w : World.

Lemma batch_transfer_none (es : list string) (st : Proc) :
  fs w SCRAPE_A_GRAVE_PATH = Some (Dir es) ->
  located w es patterns = [] ->
  batch_transfer_all_csvs w st
  = (Ok tt,
     mkProc SCRAPE_A_GRAVE_PATH
            (printed st ++ ["🔍 Scanning for state mortality CSV files...";
                            "📭 No CSV files found in scrape-a-grave directory"])
            (spawned st)).
Proof.
  intros Hfs Hnone. unfold batch_transfer_all_csvs.
  rewrite (bind_ok _ _ _ _ _ (print_run _ st)).
  unfold find_state_csv_files.
  rewrite (bind_ok _ _ _ _ _
             (find_csv_files_matching_run w patterns es _ Hfs patterns_bare)).
  rewrite Hnone. rewrite print_run. cbn [cwd printed spawned].
  now rewrite <- app_assoc.
Qed.

Lemma batch_transfer_run (es : list string) (st : Proc) :
  fs w SCRAPE_A_GRAVE_PATH = Some (Dir es) ->
  located w es patterns <> [] ->
  exists lines,
    batch_transfer_all_csvs w st
    = (Ok tt,
       mkProc SCRAPE_A_GRAVE_PATH
         (printed st ++ lines
            ++ transfer_summary
                 (count_transferred (outcomes w (spawned st)
                              (map transfer_invocation (located w es patterns))))
                 (count_untransferred (outcomes w (spawned st)
                              (map transfer_invocation (located w es patterns))))
                 (Py.len (located w es patterns)))
         (spawned st ++ map transfer_invocation (located w es patterns))).
Proof.
  intros Hfs Hsome. unfold batch_transfer_all_csvs.
  rewrite (bind_ok _ _ _ _ _ (print_run _ st)).
  unfold find_state_csv_files.
  rewrite (bind_ok _ _ _ _ _
             (find_csv_files_matching_run w patterns es _ Hfs patterns_bare)).
  set (files := located w es patterns) in *.
  assert (forall (X : Type) (a b : X),
             match files with [] => a | _ :: _ => b end = b) as Hmatch.
  { intros X a b. destruct files; [contradiction | reflexivity]. }
  rewrite Hmatch. clear Hmatch.
  rewrite (bind_ok _ _ _ _ _ (print_run _ _)).
  rewrite (bind_ok _ _ _ _ _ (for_each_print _ files _)).
  rewrite (bind_ok _ _ _ _ _ (print_run _ _)).
  cbn [cwd printed spawned].
  match goal with
  | |- exists _, bind _ _ ?s = _ =>
      destruct (transfer_loop w files s 0%Z) as (l & Hl)
  end.
  rewrite (bind_ok _ _ _ _ _ Hl). cbn [cwd printed spawned].
  rewrite (bind_ok _ _ _ _ _ (print_run _ _)).
  rewrite (bind_ok _ _ _ _ _ (print_run _ _)).
  rewrite (bind_ok _ _ _ _ _ (print_run _ _)).
  rewrite print_run. cbn [cwd printed spawned].
  rewrite Z.add_0_l.
  rewrite untransferred_count.
  eexists (_ :: _ :: (map _ files ++ _ :: l))%list.
  unfold transfer_summary.
  rewrite <- ?app_assoc. cbn [app]. rewrite <- ?app_assoc. reflexivity.
Qed.

Lemma batch_transfer_missing (st : Proc) :
  fs w SCRAPE_A_GRAVE_PATH = None ->
  batch_transfer_all_csvs w st
  = (Raised (FileNotFoundError SCRAPE_A_GRAVE_PATH),
     mkProc (cwd st)
            (printed st ++ ["🔍 Scanning for state mortality CSV files..."])
            (spawned st)).
Proof.
  intros Hfs. unfold batch_transfer_all_csvs.
  rewrite (bind_ok _ _ _ _ _ (print_run _ st)).
  unfold find_state_csv_files.
  now rewrite (bind_raised _ _ _ _ _
                 (find_csv_files_matching_missing w patterns _ Hfs)).
Qed.

End ScrapeBatch.

(** ** [sorted] *)

Lemma sorted_perm (xs : list string) : Permutation xs (Py.sorted xs).
Proof. apply Py.StringSort.Permuted_sort. Qed.

Lemma sorted_Sorted (xs : list string) : Sorted str_le (Py.sorted xs).
Proof. exact (Py.StringSort.Sorted_sort xs). Qed.

Lemma sorted_len (xs : list string) : Py.len (Py.sorted xs) = Py.len xs.
Proof.
  unfold Py.len. f_equal. symmetry.
  apply Permutation_length, sorted_perm.
Qed.

(** ** The batch of [add-all-new-csvs.py] *)

Ltac plain_line :=
  let H := fresh "H" in
  intros H; unfold hint_lines in H;
  change nl with (String "010"%char EmptyString) in H;
  cbn [In append] in H;
  destruct H as [H | [H | []]]; discriminate H.

Section AddAllNewRuns.
Import AddAllNew.
Variable w : World.

Lemma add_csv_to_queue_run (f abbrev : string) (st : Proc) :
  exists lines,
    add_csv_to_queue w f abbrev st
    = (Ok (succeeded (spawn w (spawned st) (add_invocation (cwd st) f))),
       mkProc (cwd st) (printed st ++ lines)
              (spawned st ++ [add_invocation (cwd st) f]))
    /\ (forall r, spawn w (spawned st) (add_invocation (cwd st) f) = Exited r ->
                  returncode r <> 0%Z -> stderr r <> EmptyString ->
                  In ("   Error: " ++ Py.strip (stderr r)) lines)
    /\ (forall msg, spawn w (spawned st) (add_invocation (cwd st) f)
                    = CannotStart msg ->
                    In ("❌ " ++ abbrev ++ ": Exception occurred - " ++ msg)
                       lines)
    /\ (forall r msg, spawn w (spawned st) (add_invocation (cwd st) f)
                      = Undecodable r msg ->
                      returncode r <> 0%Z -> stderr r <> EmptyString ->
                      In ("   Error: " ++ Py.strip (stderr r)) lines)
    /\ Forall plain lines.
Proof.
  unfold add_csv_to_queue. run_steps.
  fold (add_invocation (cwd st) f).
  destruct (spawn w (spawned st) (add_invocation (cwd st) f))
    as [r|r msg|msg] eqn:E.
  - cbn [succeeded].
    destruct (returncode r =? 0)%Z eqn:Erc; cbn [cwd printed spawned].
    + eexists. split; [reflexivity|].
      split; [|split; [discriminate|split; [discriminate|]]].
      * intros r' Hr' Hne. injection Hr' as <-. apply Z.eqb_eq in Erc.
        contradiction.
      * repeat constructor; plain_line.
    + destruct (stderr r) as [|c err] eqn:Eerr;
        cbn [Py.truthy cwd printed spawned].
      * eexists. split; [reflexivity|].
        split; [|split; [discriminate|split; [discriminate|]]].
        -- intros r' Hr' _ Hne. injection Hr' as <-. congruence.
        -- repeat constructor; plain_line.
      * eexists. split; [rewrite <- !app_assoc; reflexivity|].
        split; [|split; [discriminate|split; [discriminate|]]].
        -- intros r' Hr' _ _. injection Hr' as <-. rewrite Eerr. simpl. auto.
        -- repeat constructor; plain_line.
  - cbn [succeeded].
    destruct (returncode r =? 0)%Z eqn:Erc; cbn [cwd printed spawned].
    + eexists. split; [reflexivity|].
      split; [discriminate|]. split; [discriminate|]. split.
      * intros r' msg' Hr' Hne. injection Hr' as <- _. apply Z.eqb_eq in Erc.
        contradiction.
      * repeat constructor; plain_line.
    + destruct (stderr r) as [|c err] eqn:Eerr;
        cbn [Py.truthy cwd printed spawned].
      * eexists. split; [reflexivity|].
        split; [discriminate|]. split; [discriminate|]. split.
        -- intros r' msg' Hr' _ Hne. injection Hr' as <- _. congruence.
        -- repeat constructor; plain_line.
      * eexists. split; [rewrite <- !app_assoc; reflexivity|].
        split; [discriminate|]. split; [discriminate|]. split.
        -- intros r' msg' Hr' _ _. injection Hr' as <- _.
           rewrite Eerr. simpl. auto.
        -- repeat constructor; plain_line.
  - cbn [succeeded cwd printed spawned exn_str].
    eexists. split; [reflexivity|].
    split; [discriminate|]. split; [|split; [discriminate|]].
    + intros msg' Hm. injection Hm as <-. simpl. auto.
    + repeat constructor; plain_line.
Qed.

Lemma process_one_run (a f : Z) (csv_file : string) (st : Proc) :
  exists lines,
    process_one w (a, f) csv_file st
    = (Ok (if succeeded (spawn w (spawned st)
                           (add_invocation (cwd st) csv_file))
           then ((a + 1)%Z, f) else (a, (f + 1)%Z)),
       mkProc (cwd st) (printed st ++ lines)
              (spawned st ++ [add_invocation (cwd st) csv_file]))
    /\ Forall plain lines.
Proof.
  unfold process_one.
  rewrite (bind_ok _ _ _ _ _ (print_run _ _)).
  match goal with
  | |- exists _, bind (add_csv_to_queue w ?p ?ab) _ ?s = _ /\ _ =>
      destruct (add_csv_to_queue_run p ab s) as (l & Hl & _ & _ & _ & Hplain)
  end.
  rewrite (bind_ok _ _ _ _ _ Hl). unfold ret. cbn [cwd printed spawned].
  eexists (_ :: l). split; [rewrite <- app_assoc; reflexivity|].
  constructor; [plain_line | exact Hplain].
Qed.

Lemma process_loop (files : list string) (st : Proc) (a f : Z) :
  exists lines,
    for_fold files (a, f) (process_one w) st
    = (Ok ((a + count_ok (outcomes w (spawned st)
                            (map (add_invocation (cwd st)) files)))%Z,
           (f + count_failed (outcomes w (spawned st)
                                (map (add_invocation (cwd st)) files)))%Z),
       mkProc (cwd st) (printed st ++ lines)
              (spawned st ++ map (add_invocation (cwd st)) files))
    /\ Forall plain lines.
Proof.
  revert st a f; induction files as [|x files IH]; intros st a f.
  - exists []. split; [|constructor].
    simpl. unfold ret, count_ok, count_failed. simpl.
    rewrite !Z.add_0_r, !app_nil_r. now destruct st.
  - destruct (process_one_run a f x st) as (l1 & Hrun & Hp1).
    cbn [for_fold]. rewrite (bind_ok _ _ _ _ _ Hrun).
    set (o := spawn w (spawned st) (add_invocation (cwd st) x)) in *.
    cbn [map outcomes]. fold o.
    unfold count_ok, count_failed. cbn [filter].
    destruct (succeeded o) eqn:Eo; cbn [negb].
    + destruct (IH (mkProc (cwd st) (printed st ++ l1)
                           (spawned st ++ [add_invocation (cwd st) x]))
                   (a + 1)%Z f) as (l2 & -> & Hp2).
      cbn [cwd printed spawned List.length].
      exists (l1 ++ l2)%list. split; [|now apply Forall_app].
      rewrite <- !app_assoc. cbn [app].
      unfold count_ok, count_failed.
      set (n := List.length (filter succeeded _)).
      replace (a + Z.of_nat (S n))%Z with (a + 1 + Z.of_nat n)%Z by lia.
      reflexivity.
    + destruct (IH (mkProc (cwd st) (printed st ++ l1)
                           (spawned st ++ [add_invocation (cwd st) x]))
                   a (f + 1)%Z) as (l2 & -> & Hp2).
      cbn [cwd printed spawned List.length].
      exists (l1 ++ l2)%list. split; [|now apply Forall_app].
      rewrite <- !app_assoc. cbn [app].
      unfold count_ok, count_failed.
      set (n := List.length (filter (fun o0 => negb (succeeded o0)) _)).
      replace (f + Z.of_nat (S n))%Z with (f + 1 + Z.of_nat n)%Z by lia.
      reflexivity.
Qed.

Lemma glob_new_csv_files (st : Proc) :
  glob w (NtPath.join processed_csvs_dir "*.csv") st
  = (Ok (new_csv_files w), st).
Proof. reflexivity. Qed.

Lemma main_run (st : Proc) :
  exists lines rest,
    main w st
    = (Ok tt,
       mkProc (cwd st)
         (printed st ++ lines
            ++ processing_summary
                 (count_ok (outcomes w (spawned st)
                    (map (add_invocation (cwd st))
                         (Py.sorted (new_csv_files w)))))
                 (count_failed (outcomes w (spawned st)
                    (map (add_invocation (cwd st))
                         (Py.sorted (new_csv_files w)))))
                 (count_ok (outcomes w (spawned st)
                    (map (add_invocation (cwd st))
                         (Py.sorted (new_csv_files w))))
                  + count_failed (outcomes w (spawned st)
                    (map (add_invocation (cwd st))
                         (Py.sorted (new_csv_files w)))))
            ++ rest)
         (spawned st
            ++ map (add_invocation (cwd st)) (Py.sorted (new_csv_files w)))).
Proof.
  unfold main.
  rewrite (bind_ok _ _ _ _ _ (print_run _ _)).
  rewrite (bind_ok _ _ _ _ _ (print_run _ _)).
  rewrite (bind_ok _ _ _ _ _ (glob_new_csv_files _)).
  rewrite (bind_ok _ _ _ _ _ (print_run _ _)).
  cbn [cwd printed spawned].
  match goal with
  | |- exists _ _, bind _ _ ?s = _ =>
      destruct (process_loop (Py.sorted (new_csv_files w)) s 0%Z 0%Z)
        as (l & Hl & _)
  end.
  rewrite (bind_ok _ _ _ _ _ Hl). cbn [cwd printed spawned].
  rewrite !Z.add_0_l.
  rewrite (bind_ok _ _ _ _ _ (print_run _ _)).
  rewrite (bind_ok _ _ _ _ _ (print_run _ _)).
  rewrite (bind_ok _ _ _ _ _ (print_run _ _)).
  rewrite (bind_ok _ _ _ _ _ (print_run _ _)).
  cbn [cwd printed spawned].
  destruct (0 <? _)%Z.
  - rewrite (bind_ok _ _ _ _ _ (print_run _ _)). rewrite print_run.
    cbn [cwd printed spawned].
    eexists (_ :: _ :: _ :: l)%list, [_; _].
    unfold processing_summary.
    rewrite <- ?app_assoc. cbn [app]. rewrite <- ?app_assoc. reflexivity.
  - unfold ret.
    eexists (_ :: _ :: _ :: l)%list, [].
    unfold processing_summary.
    rewrite <- ?app_assoc. cbn [app]. rewrite <- ?app_assoc. reflexivity.
Qed.

End AddAllNewRuns.

(** ** The batch of [add-processed-csvs-to-queue.py] *)

Section AddProcessedRuns.
Import AddProcessed.
Variable w : World.

Lemma add_one_run (cnt : Z) (f : string) (st : Proc) :
  exists lines,
    add_one w cnt f st
    = (Ok (cnt + (if succeeded (spawn w (spawned st) (processed_invocation f))
                  then 1 else 0))%Z,
       mkProc (cwd st) (printed st ++ lines)
              (spawned st ++ [processed_invocation f]))
    /\ (forall r, spawn w (spawned st) (processed_invocation f) = Exited r ->
                  returncode r <> 0%Z -> stderr r <> EmptyString ->
                  In ("   Error: " ++ Py.strip (stderr r)) lines)
    /\ (forall msg, spawn w (spawned st) (processed_invocation f)
                    = CannotStart msg ->
                    In ("   ❌ Error processing " ++ f ++ ": " ++ msg) lines)
    /\ (forall r msg, spawn w (spawned st) (processed_invocation f)
                      = Undecodable r msg ->
                      returncode r <> 0%Z -> stderr r <> EmptyString ->
                      In ("   Error: " ++ Py.strip (stderr r)) lines).
Proof.
  unfold add_one. run_steps.
  fold (processed_invocation f).
  destruct (spawn w (spawned st) (processed_invocation f))
    as [r|r msg|msg] eqn:E.
  - cbn [succeeded].
    destruct (returncode r =? 0)%Z eqn:Erc; cbn [cwd printed spawned].
    + eexists. split; [rewrite <- !app_assoc; reflexivity|].
      split; [|split; discriminate].
      intros r' Hr' Hne. injection Hr' as <-. apply Z.eqb_eq in Erc.
      contradiction.
    + rewrite Z.add_0_r.
      destruct (stderr r) as [|c err] eqn:Eerr;
        cbn [Py.truthy cwd printed spawned].
      * eexists. split; [rewrite <- !app_assoc; reflexivity|].
        split; [|split; discriminate].
        intros r' Hr' _ Hne. injection Hr' as <-. congruence.
      * eexists. split; [rewrite <- !app_assoc; reflexivity|].
        split; [|split; discriminate].
        intros r' Hr' _ _. injection Hr' as <-. rewrite Eerr. simpl. auto.
  - cbn [succeeded].
    destruct (returncode r =? 0)%Z eqn:Erc; cbn [cwd printed spawned].
    + eexists. split; [rewrite <- !app_assoc; reflexivity|].
      split; [discriminate|]. split; [discriminate|].
      intros r' msg' Hr' Hne. injection Hr' as <- _. apply Z.eqb_eq in Erc.
      contradiction.
    + rewrite Z.add_0_r.
      destruct (stderr r) as [|c err] eqn:Eerr;
        cbn [Py.truthy cwd printed spawned].
      * eexists. split; [rewrite <- !app_assoc; reflexivity|].
        split; [discriminate|]. split; [discriminate|].
        intros r' msg' Hr' _ Hne. injection Hr' as <- _. congruence.
      * eexists. split; [rewrite <- !app_assoc; reflexivity|].
        split; [discriminate|]. split; [discriminate|].
        intros r' msg' Hr' _ _. injection Hr' as <- _.
        rewrite Eerr. simpl. auto.
  - cbn [succeeded cwd printed spawned exn_str]. rewrite Z.add_0_r.
    eexists. split; [rewrite <- !app_assoc; reflexivity|].
    split; [discriminate|]. split; [|discriminate].
    intros msg' Hm. injection Hm as <-. simpl. auto.
Qed.

Lemma add_loop (files : list string) (st : Proc) (cnt : Z) :
  exists lines,
    for_fold files cnt (add_one w) st
    = (Ok (cnt + count_ok (outcomes w (spawned st)
                             (map processed_invocation files)))%Z,
       mkProc (cwd st) (printed st ++ lines)
              (spawned st ++ map processed_invocation files)).
Proof.
  revert st cnt; induction files as [|f files IH]; intros st cnt.
  - exists []. simpl. unfold ret, count_ok. simpl.
    rewrite Z.add_0_r, !app_nil_r. now destruct st.
  - destruct (add_one_run cnt f st) as (l1 & Hrun & _).
    cbn [for_fold]. rewrite (bind_ok _ _ _ _ _ Hrun).
    match goal with
    | |- context [for_fold files ?c _ ?s] => destruct (IH s c) as (l2 & ->)
    end.
    cbn [cwd printed spawned map outcomes].
    exists (l1 ++ l2)%list. rewrite count_ok_cons, <- !app_assoc.
    cbn [app]. f_equal. f_equal. lia.
Qed.

Lemma add_processed_missing (st : Proc) :
  fs w processed_csvs_path = None ->
  add_processed_csvs_to_queue w st
  = (Ok tt,
     mkProc (cwd st)
       (printed st
          ++ ["❌ Processed CSVs directory not found: " ++ processed_csvs_path])
       (spawned st)).
Proof.
  intros Hfs. unfold add_processed_csvs_to_queue, path_exists.
  rewrite Hfs. reflexivity.
Qed.

Lemma add_processed_not_a_directory (st : Proc) :
  fs w processed_csvs_path = Some File ->
  add_processed_csvs_to_queue w st
  = (Raised (NotADirectoryError processed_csvs_path), st).
Proof.
  intros Hfs. unfold add_processed_csvs_to_queue, path_exists, listdir.
  rewrite Hfs. reflexivity.
Qed.

Lemma add_processed_run (es : list string) (st : Proc) :
  fs w processed_csvs_path = Some (Dir es) ->
  exists lines,
    add_processed_csvs_to_queue w st
    = (Ok tt,
       mkProc (cwd st)
         (printed st ++ lines
            ++ transfer_summary
                 (count_ok (outcomes w (spawned st)
                    (map processed_invocation
                         (Py.sorted (filter is_processed_csv es)))))
                 (count_failed (outcomes w (spawned st)
                    (map processed_invocation
                         (Py.sorted (filter is_processed_csv es)))))
                 (Py.len (filter is_processed_csv es)))
         (spawned st
            ++ map processed_invocation
                   (Py.sorted (filter is_processed_csv es)))).
Proof.
  intros Hfs. unfold add_processed_csvs_to_queue, path_exists, listdir.
  rewrite Hfs. unfold ret at 1. unfold bind at 1. cbn [negb].
  unfold ret at 1. unfold bind at 1.
  rewrite (bind_ok _ _ _ _ _ (print_run _ _)).
  match goal with
  | |- exists _, bind _ _ ?s = _ =>
      destruct (add_loop (Py.sorted (filter is_processed_csv es)) s 0%Z)
        as (l & Hl)
  end.
  rewrite (bind_ok _ _ _ _ _ Hl). cbn [cwd printed spawned].
  rewrite (bind_ok _ _ _ _ _ (print_run _ _)).
  rewrite (bind_ok _ _ _ _ _ (print_run _ _)).
  rewrite (bind_ok _ _ _ _ _ (print_run _ _)).
  rewrite print_run. cbn [cwd printed spawned].
  rewrite Z.add_0_l.
  assert ((Py.len (filter is_processed_csv es)
           - count_ok (outcomes w (spawned st)
                         (map processed_invocation
                              (Py.sorted (filter is_processed_csv es)))))%Z
          = count_failed (outcomes w (spawned st)
                            (map processed_invocation
                                 (Py.sorted (filter is_processed_csv es)))))
    as Hfailed
    by (rewrite <- sorted_len; apply failed_count).
  rewrite Hfailed.
  eexists (_ :: l)%list.
  unfold transfer_summary.
  rewrite <- ?app_assoc. cbn [app]. rewrite <- ?app_assoc. reflexivity.
Qed.

End AddProcessedRuns.

(** ** What leaves the current directory alone *)

Lemma keeps_cwd_ret {A} (a : A) : keeps_cwd (ret a).
Proof. intros st. reflexivity. Qed.

Lemma keeps_cwd_print (line : string) : keeps_cwd (print line).
Proof. intros st. reflexivity. Qed.

Lemma keeps_cwd_bind {A B} (m : M A) (k : A -> M B) :
  keeps_cwd m -> (forall a, keeps_cwd (k a)) -> keeps_cwd (bind m k).
Proof.
  intros Hm Hk st. unfold bind. specialize (Hm st).
  destruct (m st) as [[a|e] st']; cbn [snd] in *.
  - now rewrite (Hk a st').
  - exact Hm.
Qed.

Lemma keeps_cwd_try {A} (body : M A) (handler : Exn -> M A) :
  keeps_cwd body -> (forall e, keeps_cwd (handler e)) ->
  keeps_cwd (try_except body handler).
Proof.
  intros Hb Hh st. unfold try_except. specialize (Hb st).
  destruct (body st) as [[a|e] st']; cbn [snd] in *.
  - exact Hb.
  - now rewrite (Hh e st').
Qed.

Lemma keeps_cwd_run (w : World) (cmd dir : string) (decoding : Decoding) :
  keeps_cwd (subprocess_run w cmd dir decoding).
Proof.
  intros st. unfold subprocess_run.
  destruct (spawn w _ _); [reflexivity | now destruct decoding | reflexivity].
Qed.

Lemma keeps_cwd_for_each {A} (xs : list A) (body : A -> M unit) :
  (forall x, keeps_cwd (body x)) -> keeps_cwd (for_each xs body).
Proof.
  intros Hb. induction xs as [|x xs IH]; simpl.
  - apply keeps_cwd_ret.
  - apply keeps_cwd_bind; auto.
Qed.

Lemma keeps_cwd_for_fold {A S} (xs : list A) (body : S -> A -> M S) :
  (forall s x, keeps_cwd (body s x)) ->
  forall s, keeps_cwd (for_fold xs s body).
Proof.
  intros Hb. induction xs as [|x xs IH]; intros s; simpl.
  - apply keeps_cwd_ret.
  - apply keeps_cwd_bind; auto.
Qed.

Create HintDb cwd.
#[local] Hint Resolve keeps_cwd_ret keeps_cwd_print keeps_cwd_run : cwd.
#[local] Hint Extern 2 (keeps_cwd (bind _ _)) =>
  (apply keeps_cwd_bind; [|intros]) : cwd.
#[local] Hint Extern 2 (keeps_cwd (try_except _ _)) =>
  (apply keeps_cwd_try; [|intros]) : cwd.
#[local] Hint Extern 2 (keeps_cwd (if ?b then _ else _)) => destruct b : cwd.

Section ScrapeCwd.
Import ScrapeIntegration.
Variable w : World.

Lemma keeps_cwd_transfer (f : string) : keeps_cwd (transfer_csv_to_queue w f).
Proof. unfold transfer_csv_to_queue. auto 12 with cwd. Qed.

Lemma keeps_cwd_status : keeps_cwd (show_queue_status w).
Proof. unfold show_queue_status. auto 12 with cwd. Qed.

Lemma keeps_cwd_process : keeps_cwd (process_queue w).
Proof. unfold process_queue. auto 12 with cwd. Qed.

(** Once the scrape directory has been entered, the batch and everything
    [main] runs after it stay there. *)
Lemma batch_transfer_cwd (es : list string) (st : Proc) :
  fs w SCRAPE_A_GRAVE_PATH = Some (Dir es) ->
  exists st', batch_transfer_all_csvs w st = (Ok tt, st')
              /\ cwd st' = SCRAPE_A_GRAVE_PATH.
Proof.
  intros Hfs.
  destruct (located w es patterns) as [|f fs0] eqn:E.
  - eexists. split; [apply (batch_transfer_none w es st Hfs E) | reflexivity].
  - destruct (batch_transfer_run w es st Hfs) as (l & Hl); [congruence|].
    eexists. split; [exact Hl | reflexivity].
Qed.

Lemma main_full_cwd (es : list string) (prog : string) (st : Proc) :
  fs w SCRAPE_A_GRAVE_PATH = Some (Dir es) ->
  cwd (snd (main w [prog; "full"] st)) = SCRAPE_A_GRAVE_PATH.
Proof.
  intros Hfs.
  change (main w [prog; "full"])
    with (print "🔄 Full Pipeline: Transfer → Process" ;;
          batch_transfer_all_csvs w ;;
          (print (nl ++ rule) ;;
           show_queue_status w ;;
           print (nl ++ rule) ;;
           process_queue w ;;
           ret tt)).
  rewrite (bind_ok _ _ _ _ _ (print_run _ _)).
  destruct (batch_transfer_cwd es
              (mkProc (cwd st)
                      (printed st ++ ["🔄 Full Pipeline: Transfer → Process"])
                      (spawned st)) Hfs) as (st' & Hrun & Hcwd).
  rewrite (bind_ok _ _ _ _ _ Hrun).
  rewrite <- Hcwd.
  assert (keeps_cwd (print (nl ++ rule) ;;
                     show_queue_status w ;;
                     print (nl ++ rule) ;;
                     process_queue w ;;
                     ret tt)) as Hk.
  { pose proof keeps_cwd_status. pose proof keeps_cwd_process.
    auto 12 with cwd. }
  apply Hk.
Qed.

End ScrapeCwd.

(** * The pipeline's properties *)

(** ** Resolution *)

Lemma state_info_of_registered (s : State) :
  In s AddProcessed.states ->
  Py.has_char "_"%char (abbreviation s) = false
  /\ AddProcessed.state_info_of (abbreviation s) = Some s.
Proof.
  intros Hin. unfold AddProcessed.states in Hin. cbn [In] in Hin.
  repeat (destruct Hin as [<- | Hin]; [split; reflexivity|]).
  contradiction.
Qed.

Lemma state_info_of_miss (x : string) :
  (forall s, In s AddProcessed.states -> abbreviation s <> x) ->
  AddProcessed.state_info_of x = None.
Proof.
  intros Hno. unfold AddProcessed.state_info_of.
  destruct (find _ AddProcessed.states) as [s|] eqn:E; [|reflexivity].
  apply find_some in E. destruct E as [Hin Heq].
  apply String.eqb_eq in Heq. now destruct (Hno s Hin).
Qed.

(** C1 (as amended).  Each script resolves by one heuristic only.  In
    [add-processed-csvs-to-queue.py] a file name that starts with a registered
    abbreviation followed by [_] resolves to that row of [states] and to its
    name; a name whose first [_]-segment is not registered is labelled with
    that raw segment.  [extract_state_from_filename] looks for state names
    only: it answers ["Unknown"] exactly when no key of [state_patterns]
    occurs in the lower-cased stem.  The resolvers are total, and the
    dispatch steps that call them return normally for every file name. *)
Theorem resolution_by_one_heuristic (filename : string) :
  (forall s rest,
      In s AddProcessed.states ->
      AddProcessed.state_abbrev_of (abbreviation s ++ "_" ++ rest)
      = abbreviation s
      /\ AddProcessed.state_info_of (abbreviation s) = Some s
      /\ AddProcessed.state_name_of (abbreviation s ++ "_" ++ rest) = name s)
  /\ ((forall s, In s AddProcessed.states ->
                 abbreviation s <> AddProcessed.state_abbrev_of filename) ->
      AddProcessed.state_info_of (AddProcessed.state_abbrev_of filename) = None
      /\ AddProcessed.state_name_of filename
         = AddProcessed.state_abbrev_of filename)
  /\ (ScrapeIntegration.extract_state_from_filename filename = "Unknown"
      <-> forall k v, In (k, v) ScrapeIntegration.state_patterns ->
                      Py.contains k (Py.lower (NtPath.stem filename)) = false)
  /\ (forall w cnt st,
         exists cnt' st',
           AddProcessed.add_one w cnt filename st = (Ok cnt', st'))
  /\ (forall w st,
         exists ok st',
           ScrapeIntegration.transfer_csv_to_queue w filename st
           = (Ok ok, st')).
Proof.
  split; [|split; [|split; [|split]]].
  - intros s rest Hin.
    destruct (state_info_of_registered s Hin) as [Hund Hinfo].
    assert (AddProcessed.state_abbrev_of (abbreviation s ++ "_" ++ rest)
            = abbreviation s) as Habbrev
      by (apply (split_head_app "_"%char); exact Hund).
    split; [exact Habbrev|]. split; [exact Hinfo|].
    unfold AddProcessed.state_name_of. now rewrite Habbrev, Hinfo.
  - intros Hno. split; [now apply state_info_of_miss|].
    unfold AddProcessed.state_name_of.
    now rewrite (state_info_of_miss _ Hno).
  - apply first_state_unknown, state_patterns_values.
  - intros w cnt st.
    destruct (add_one_run w cnt filename st) as (l & Hl & _). eauto.
  - intros w st.
    destruct (transfer_csv_to_queue_run w filename st) as (l & Hl & _). eauto.
Qed.

Lemma resolution_by_one_heuristic_witness :
  AddProcessed.state_name_of
    ("FL" ++ "_" ++ "20251118_210521_us_recent_deaths.csv") = "Florida"
  /\ AddProcessed.state_name_of "ZZ_20251118_210521_us_recent_deaths.csv"
     = "ZZ".
Proof.
  split.
  - apply (proj1 (resolution_by_one_heuristic "mystery_export.csv")
                 (mkState "FL" "Florida" "state_11")
                 "20251118_210521_us_recent_deaths.csv").
    vm_compute. tauto.
  - apply (proj1 (proj2 (resolution_by_one_heuristic
                           "ZZ_20251118_210521_us_recent_deaths.csv"))).
    intros s Hin. unfold AddProcessed.states in Hin. cbn [In] in Hin.
    repeat (destruct Hin as [<- | Hin]; [vm_compute; discriminate|]).
    contradiction.
Defined.

(** C1 as stated fails on both resolvers: the file of the specification's
    own scenario starts with the registered code [FL] and an underscore, yet
    [extract_state_from_filename] answers ["Unknown"]; and a name with an
    unregistered prefix is labelled with the prefix, not with ["Unknown"]. *)
Lemma prefix_code_resolution_counterexample :
  ~ (forall filename s,
        In s AddProcessed.states ->
        Py.startswith (abbreviation s ++ "_") (NtPath.stem filename) = true ->
        ScrapeIntegration.extract_state_from_filename filename = name s)
  /\ ~ (forall filename,
          (forall s, In s AddProcessed.states ->
                     Py.startswith (abbreviation s ++ "_") filename = false) ->
          AddProcessed.state_name_of filename = "Unknown").
Proof.
  split.
  - intros H.
    specialize (H "FL_20251118_210521_us_recent_deaths.csv"
                  (mkState "FL" "Florida" "state_11")).
    assert (ScrapeIntegration.extract_state_from_filename
              "FL_20251118_210521_us_recent_deaths.csv" = "Florida") as Habs.
    { apply H; [vm_compute; tauto | reflexivity]. }
    vm_compute in Habs. discriminate.
  - intros H.
    specialize (H "ZZ_20251118_210521_us_recent_deaths.csv").
    assert (AddProcessed.state_name_of
              "ZZ_20251118_210521_us_recent_deaths.csv" = "Unknown") as Habs.
    { apply H. intros s Hin. unfold AddProcessed.states in Hin. cbn [In] in Hin.
      repeat (destruct Hin as [<- | Hin]; [reflexivity|]). contradiction. }
    vm_compute in Habs. discriminate.
Qed.

(** C9 (as amended).  The scan follows the insertion order of the table
    and the first key found in the lower-cased stem decides.  For a stem that
    contains [westvirginia] the answer is never ["West Virginia"], because
    [virginia] comes earlier and occurs in it too; the answer is ["Virginia"]
    when none of the keys that precede [virginia] occurs as well. *)
Theorem westvirginia_shadowed_by_virginia (filename : string) :
  Py.contains "westvirginia" (Py.lower (NtPath.stem filename)) = true ->
  ScrapeIntegration.extract_state_from_filename filename <> "West Virginia"
  /\ ((forall k v,
          In (k, v) (preceding "virginia" ScrapeIntegration.state_patterns) ->
          Py.contains k (Py.lower (NtPath.stem filename)) = false) ->
      ScrapeIntegration.extract_state_from_filename filename = "Virginia")
  /\ (exists l1 k v l2,
         ScrapeIntegration.state_patterns = (l1 ++ (k, v) :: l2)%list
         /\ (forall k' v', In (k', v') l1 ->
               Py.contains k' (Py.lower (NtPath.stem filename)) = false)
         /\ Py.contains k (Py.lower (NtPath.stem filename)) = true
         /\ ScrapeIntegration.extract_state_from_filename filename = v).
Proof.
  intros Hwv. split; [apply never_west_virginia|]. split.
  - intros Hpre. unfold ScrapeIntegration.extract_state_from_filename.
    rewrite state_patterns_split, (first_state_skip _ _ _ Hpre).
    cbn [ScrapeIntegration.first_state].
    now rewrite (westvirginia_has_virginia _ Hwv).
  - destruct (first_state_cases ScrapeIntegration.state_patterns
                (Py.lower (NtPath.stem filename)))
      as [Hfound | [Hno _]]; [exact Hfound|].
    exfalso.
    assert (In ("westvirginia", "West Virginia")
               ScrapeIntegration.state_patterns) as Hin
        by (vm_compute; tauto).
    specialize (Hno _ _ Hin). congruence.
Qed.

Lemma westvirginia_shadowed_by_virginia_witness :
  ScrapeIntegration.extract_state_from_filename
    "c:\Users\djman\OneDrive\Documents\GitHub\scrape-a-grave\WestVirginia_deaths.csv"
  <> "West Virginia".
Proof.
  apply (westvirginia_shadowed_by_virginia
           "c:\Users\djman\OneDrive\Documents\GitHub\scrape-a-grave\WestVirginia_deaths.csv").
  reflexivity.
Defined.

(** C9 as stated fails: a stem may contain [westvirginia] and a key that
    precedes [virginia] in the table, and then that earlier key wins. *)
Lemma westvirginia_counterexample :
  ~ (forall filename,
        Py.contains "westvirginia" (NtPath.stem filename) = true ->
        ScrapeIntegration.extract_state_from_filename filename = "Virginia").
Proof.
  intros H. specialize (H "deaths_ohio_westvirginia.csv" eq_refl).
  vm_compute in H. discriminate.
Qed.

Lemma has_char_app (c : ascii) (p q : string) :
  Py.has_char c (p ++ String c q) = true.
Proof.
  induction p as [|d p IH]; simpl.
  - now rewrite Ascii.eqb_refl.
  - rewrite IH. apply orb_true_r.
Qed.

Lemma processed_csv_has_underscore (file : string) :
  AddProcessed.is_processed_csv file = true ->
  Py.has_char "_"%char file = true.
Proof.
  unfold AddProcessed.is_processed_csv. intros H.
  apply andb_true_iff in H. destruct H as [_ H].
  apply contains_inv in H. destruct H as (p & q & ->).
  apply has_char_app.
Qed.




(** ** Dispatch *)




Lemma count_ok_perm (os os' : list Outcome) :
  Permutation os os' -> count_ok os = count_ok os'.
Proof.
  intros H. induction H as [|o l l' _ IH|a b l|l l' l'' _ IH1 _ IH2].
  - reflexivity.
  - rewrite !count_ok_cons. now rewrite IH.
  - rewrite !count_ok_cons. lia.
  - congruence.
Qed.

Lemma first_seen_ok (f : string -> option Node)
      (sp : list Invocation -> Invocation -> Outcome) :
  set_iter_ok (mkWorld f sp first_seen).
Proof.
  intros xs. cbn [set_iter]. unfold first_seen. split.
  - apply NoDup_nodup.
  - intros x. apply nodup_In.
Qed.

Lemma last_seen_first_ok (f : string -> option Node)
      (sp : list Invocation -> Invocation -> Outcome) :
  set_iter_ok (mkWorld f sp last_seen_first).
Proof.
  intros xs. cbn [set_iter]. unfold last_seen_first. split.
  - apply NoDup_rev, NoDup_nodup.
  - intros x. rewrite <- in_rev. apply nodup_In.
Qed.





(** ** The batch as a whole *)

(** C2.  Whatever the outcomes of the individual dispatches, the batch
    spawns the command once for every located file, in order, and runs to
    its end; the three numbers of the printed summary are the count of
    successful dispatches, the count of failed ones and the number of
    candidates, and the first two add up to the third. *)
Theorem batch_processes_every_file (w : World) (st : Proc) :
  (forall es,
      fs w ScrapeIntegration.SCRAPE_A_GRAVE_PATH = Some (Dir es) ->
      located w es ScrapeIntegration.patterns <> [] ->
      exists lines s f t,
        ScrapeIntegration.batch_transfer_all_csvs w st
        = (Ok tt,
           mkProc ScrapeIntegration.SCRAPE_A_GRAVE_PATH
             (printed st ++ lines ++ transfer_summary s f t)
             (spawned st
                ++ map transfer_invocation
                       (located w es ScrapeIntegration.patterns)))
        /\ s = count_transferred (outcomes w (spawned st)
                 (map transfer_invocation
                      (located w es ScrapeIntegration.patterns)))
        /\ f = count_untransferred (outcomes w (spawned st)
                 (map transfer_invocation
                      (located w es ScrapeIntegration.patterns)))
        /\ t = Py.len (located w es ScrapeIntegration.patterns)
        /\ (s + f = t)%Z)
  /\ (exists lines rest s f t,
        AddAllNew.main w st
        = (Ok tt,
           mkProc (cwd st)
             (printed st ++ lines ++ processing_summary s f t ++ rest)
             (spawned st
                ++ map (add_invocation (cwd st))
                       (Py.sorted (new_csv_files w))))
        /\ s = count_ok (outcomes w (spawned st)
                 (map (add_invocation (cwd st)) (Py.sorted (new_csv_files w))))
        /\ f = count_failed (outcomes w (spawned st)
                 (map (add_invocation (cwd st)) (Py.sorted (new_csv_files w))))
        /\ t = Py.len (new_csv_files w)
        /\ (s + f = t)%Z
        /\ Permutation (new_csv_files w) (Py.sorted (new_csv_files w)))
  /\ (forall es,
        fs w AddProcessed.processed_csvs_path = Some (Dir es) ->
        exists lines s f t,
          AddProcessed.add_processed_csvs_to_queue w st
          = (Ok tt,
             mkProc (cwd st)
               (printed st ++ lines ++ transfer_summary s f t)
               (spawned st
                  ++ map processed_invocation
                         (Py.sorted (filter AddProcessed.is_processed_csv es))))
          /\ s = count_ok (outcomes w (spawned st)
                   (map processed_invocation
                        (Py.sorted (filter AddProcessed.is_processed_csv es))))
          /\ f = count_failed (outcomes w (spawned st)
                   (map processed_invocation
                        (Py.sorted (filter AddProcessed.is_processed_csv es))))
          /\ t = Py.len (filter AddProcessed.is_processed_csv es)
          /\ (s + f = t)%Z
          /\ Permutation (filter AddProcessed.is_processed_csv es)
                         (Py.sorted (filter AddProcessed.is_processed_csv es))).
Proof.
  split; [|split].
  - intros es Hfs Hsome.
    destruct (batch_transfer_run w es st Hfs Hsome) as (lines & Hrun).
    eexists lines, _, _, _. split; [exact Hrun|].
    repeat split.
    rewrite count_transferred_total. unfold Py.len.
    now rewrite outcomes_length, length_map.
  - destruct (main_run w st) as (lines & rest & Hrun).
    eexists lines, rest, _, _, _. split; [exact Hrun|].
    repeat split.
    + rewrite count_ok_failed. unfold Py.len.
      rewrite outcomes_length, length_map.
      f_equal. symmetry. apply Permutation_length, sorted_perm.
    + apply sorted_perm.
  - intros es Hfs.
    destruct (add_processed_run w es st Hfs) as (lines & Hrun).
    eexists lines, _, _, _. split; [exact Hrun|].
    repeat split.
    + rewrite count_ok_failed. unfold Py.len.
      rewrite outcomes_length, length_map.
      f_equal. symmetry. apply Permutation_length, sorted_perm.
    + apply sorted_perm.
Qed.

Lemma batch_processes_every_file_witness :
  exists lines s f t,
    ScrapeIntegration.batch_transfer_all_csvs sample_world sample_proc
    = (Ok tt,
       mkProc ScrapeIntegration.SCRAPE_A_GRAVE_PATH
         (printed sample_proc ++ lines ++ transfer_summary s f t)
         (spawned sample_proc
            ++ map transfer_invocation
                   (located sample_world sample_scrape_entries
                            ScrapeIntegration.patterns)))
    /\ s = count_transferred (outcomes sample_world (spawned sample_proc)
             (map transfer_invocation
                  (located sample_world sample_scrape_entries
                           ScrapeIntegration.patterns)))
    /\ f = count_untransferred (outcomes sample_world (spawned sample_proc)
             (map transfer_invocation
                  (located sample_world sample_scrape_entries
                           ScrapeIntegration.patterns)))
    /\ t = Py.len (located sample_world sample_scrape_entries
                           ScrapeIntegration.patterns)
    /\ (s + f = t)%Z.
Proof.
  apply (proj1 (batch_processes_every_file sample_world sample_proc)
               sample_scrape_entries).
  - reflexivity.
  - vm_compute. discriminate.
Defined.

Lemma queue_add_cmd_inj (f g : string) :
  ScrapeIntegration.queue_add_cmd f = ScrapeIntegration.queue_add_cmd g ->
  f = g.
Proof.
  unfold ScrapeIntegration.queue_add_cmd. intros H.
  apply append_inj_l in H. apply append_inj_l in H.
  revert g H. induction f as [|c f IH]; intros [|d g] H; simpl in H.
  - reflexivity.
  - injection H as _ H. destruct g; discriminate.
  - injection H as _ H. destruct f; discriminate.
  - injection H as -> H. f_equal. now apply IH.
Qed.

(** C3.  Whatever the patterns (without a directory part, as those of the
    script are) and whatever the directory holds, [find_state_csv_files]
    returns a list without repetition: the path of an entry matched by
    several patterns occurs exactly once, and nothing else occurs.  The
    batch therefore spawns pairwise distinct commands. *)
Theorem locate_yields_each_file_once
        (w : World) (pats es : list string) (st : Proc) :
  set_iter_ok w ->
  fs w ScrapeIntegration.SCRAPE_A_GRAVE_PATH = Some (Dir es) ->
  Forall bare pats ->
  (exists files,
      ScrapeIntegration.find_csv_files_matching w pats st
      = (Ok files,
         mkProc ScrapeIntegration.SCRAPE_A_GRAVE_PATH (printed st) (spawned st))
      /\ NoDup files
      /\ (forall n,
             (exists p, In p pats /\ In n (Glob.glob1 es p)) ->
             count_occ string_dec files
               (NtPath.abspath ScrapeIntegration.SCRAPE_A_GRAVE_PATH n) = 1%nat)
      /\ (forall f,
             In f files ->
             exists n p,
               f = NtPath.abspath ScrapeIntegration.SCRAPE_A_GRAVE_PATH n
               /\ In p pats /\ In n (Glob.glob1 es p)))
  /\ (exists files,
        ScrapeIntegration.find_state_csv_files w st
        = (Ok files,
           mkProc ScrapeIntegration.SCRAPE_A_GRAVE_PATH (printed st)
                  (spawned st))
        /\ NoDup files
        /\ exists st',
            ScrapeIntegration.batch_transfer_all_csvs w st = (Ok tt, st')
            /\ spawned st' = (spawned st ++ map transfer_invocation files)%list
            /\ NoDup (map inv_cmd (map transfer_invocation files))).
Proof.
  intros Hset Hfs Hbare. split.
  - exists (located w es pats).
    split; [now apply find_csv_files_matching_run|].
    split; [now apply located_NoDup|].
    split.
    + intros n Hn. apply NoDup_count_occ'; [now apply located_NoDup|].
      now apply located_In.
    + intros f Hf. unfold located in Hf. apply in_map_iff in Hf.
      destruct Hf as (n & <- & Hin).
      destruct (Hset (flat_map (Glob.glob1 es) pats)) as [_ Hiff].
      apply (proj1 (Hiff n)) in Hin. apply in_flat_map in Hin.
      destruct Hin as (p & Hp & Hn). now exists n, p.
  - exists (located w es ScrapeIntegration.patterns).
    split; [apply find_csv_files_matching_run; [exact Hfs | exact patterns_bare]|].
    split; [now apply located_NoDup|].
    assert (NoDup (map inv_cmd
                     (map transfer_invocation
                          (located w es ScrapeIntegration.patterns)))) as Hnd.
    { rewrite map_map. cbn [transfer_invocation inv_cmd].
      apply Finite.Injective_map_NoDup; [|now apply located_NoDup].
      intros f g. apply queue_add_cmd_inj. }
    destruct (located w es ScrapeIntegration.patterns) as [|f0 fs0] eqn:E.
    + eexists. split; [apply (batch_transfer_none w es st Hfs E)|].
      cbn [spawned map]. split; [now rewrite app_nil_r | constructor].
    + destruct (batch_transfer_run w es st Hfs) as (l & Hl); [congruence|].
      rewrite E in Hl.
      eexists. split; [exact Hl|]. cbn [spawned]. split; [reflexivity|exact Hnd].
Qed.

Lemma locate_yields_each_file_once_witness :
  count_occ string_dec
    (located sample_world sample_scrape_entries ScrapeIntegration.patterns)
    (NtPath.abspath ScrapeIntegration.SCRAPE_A_GRAVE_PATH
                    "us_recent_deaths_FL_deaths.csv") = 1%nat
  /\ In "us_recent_deaths_FL_deaths.csv"
        (Glob.glob1 sample_scrape_entries "us_recent_deaths_*.csv")
  /\ In "us_recent_deaths_FL_deaths.csv"
        (Glob.glob1 sample_scrape_entries "*_deaths.csv").
Proof.
  split; [|split; vm_compute; tauto].
  destruct (proj1 (locate_yields_each_file_once
                     sample_world ScrapeIntegration.patterns
                     sample_scrape_entries sample_proc
                     (first_seen_ok sample_fs sample_spawn)
                     eq_refl patterns_bare))
    as (files & Hrun & _ & Hcount & _).
  rewrite (find_csv_files_matching_run sample_world ScrapeIntegration.patterns
             sample_scrape_entries sample_proc eq_refl patterns_bare) in Hrun.
  injection Hrun as ->.
  apply Hcount. exists "*_deaths.csv". split; vm_compute; tauto.
Defined.

(** C5 (as amended).  [transfer_csv_to_queue] and the loop of
    [add-processed-csvs-to-queue.py] spawn the command in the configured
    CTBAL project directory, wherever the process itself is;
    [add_csv_to_queue] passes [os.getcwd()] and so spawns it in the current
    directory of the calling process. *)
Theorem enqueue_working_directory
        (w : World) (f abbrev : string) (cnt : Z) (st : Proc) :
  (exists b lines,
      ScrapeIntegration.transfer_csv_to_queue w f st
      = (Ok b,
         mkProc (cwd st) (printed st ++ lines)
           (spawned st
              ++ [mkInvocation (ScrapeIntegration.queue_add_cmd f)
                               ScrapeIntegration.CTBAL_PROJECT_PATH])))
  /\ (exists cnt' lines,
        AddProcessed.add_one w cnt f st
        = (Ok cnt',
           mkProc (cwd st) (printed st ++ lines)
             (spawned st
                ++ [mkInvocation
                      (AddProcessed.queue_add_cmd
                         (NtPath.join AddProcessed.processed_csvs_path f))
                      AddProcessed.ctbal_project_path])))
  /\ (exists b lines,
        AddAllNew.add_csv_to_queue w f abbrev st
        = (Ok b,
           mkProc (cwd st) (printed st ++ lines)
             (spawned st
                ++ [mkInvocation (AddAllNew.queue_add_cmd f) (cwd st)]))).
Proof.
  split; [|split].
  - destruct (transfer_csv_to_queue_run w f st) as (l & Hl & _). eauto.
  - destruct (add_one_run w cnt f st) as (l & Hl & _). eauto.
  - destruct (add_csv_to_queue_run w f abbrev st) as (l & Hl & _). eauto.
Qed.

(** C5 as stated fails for [add_csv_to_queue]: started from the user's home
    directory, it spawns the command there and not in the CTBAL project. *)
Lemma add_csv_to_queue_cwd_counterexample :
  cwd sample_proc = "C:\Users\djman"
  /\ map inv_cwd
         (spawned (snd (AddAllNew.add_csv_to_queue sample_world
                          "C:\Users\djman\OneDrive\Documents\GitHub\scrape-a-grave\processed_csvs\FL_20251118_210521_us_recent_deaths.csv"
                          "FL" sample_proc)))
     = ["C:\Users\djman"]
  /\ "C:\Users\djman" <> ScrapeIntegration.CTBAL_PROJECT_PATH
  /\ "C:\Users\djman" <> AddProcessed.ctbal_project_path.
Proof. repeat split; try reflexivity; vm_compute; discriminate. Qed.

(** C6 (as amended).  [add-all-new-csvs.py] and
    [add-processed-csvs-to-queue.py] dispatch their candidates in ascending
    order ([sorted]); [batch_transfer_all_csvs] dispatches them in the order
    in which the set built by [find_state_csv_files] happens to be iterated,
    each distinct path once. *)
Theorem dispatch_order (w : World) (st : Proc) :
  (exists st',
      AddAllNew.main w st = (Ok tt, st')
      /\ spawned st'
         = (spawned st
              ++ map (add_invocation (cwd st)) (Py.sorted (new_csv_files w)))%list
      /\ Sorted str_le (Py.sorted (new_csv_files w))
      /\ Permutation (new_csv_files w) (Py.sorted (new_csv_files w)))
  /\ (forall es,
        fs w AddProcessed.processed_csvs_path = Some (Dir es) ->
        exists st',
          AddProcessed.add_processed_csvs_to_queue w st = (Ok tt, st')
          /\ spawned st'
             = (spawned st
                  ++ map processed_invocation
                         (Py.sorted (filter AddProcessed.is_processed_csv es)))%list
          /\ Sorted str_le (Py.sorted (filter AddProcessed.is_processed_csv es))
          /\ Permutation (filter AddProcessed.is_processed_csv es)
                         (Py.sorted (filter AddProcessed.is_processed_csv es)))
  /\ (forall es,
        fs w ScrapeIntegration.SCRAPE_A_GRAVE_PATH = Some (Dir es) ->
        exists st',
          ScrapeIntegration.batch_transfer_all_csvs w st = (Ok tt, st')
          /\ spawned st'
             = (spawned st
                  ++ map transfer_invocation
                       (map (NtPath.abspath ScrapeIntegration.SCRAPE_A_GRAVE_PATH)
                            (set_iter w
                               (flat_map (Glob.glob1 es)
                                         ScrapeIntegration.patterns))))%list).
Proof.
  split; [|split].
  - destruct (main_run w st) as (lines & rest & Hrun).
    eexists. split; [exact Hrun|]. cbn [spawned].
    split; [reflexivity|]. split; [apply sorted_Sorted | apply sorted_perm].
  - intros es Hfs.
    destruct (add_processed_run w es st Hfs) as (lines & Hrun).
    eexists. split; [exact Hrun|]. cbn [spawned].
    split; [reflexivity|]. split; [apply sorted_Sorted | apply sorted_perm].
  - intros es Hfs. fold (located w es ScrapeIntegration.patterns).
    destruct (located w es ScrapeIntegration.patterns) as [|f0 fs0] eqn:E.
    + eexists. split; [apply (batch_transfer_none w es st Hfs E)|].
      cbn [spawned map]. now rewrite app_nil_r.
    + destruct (batch_transfer_run w es st Hfs) as (l & Hl); [congruence|].
      rewrite E in Hl. eexists. split; [exact Hl | reflexivity].
Qed.

Lemma dispatch_order_witness :
  exists st',
    AddProcessed.add_processed_csvs_to_queue sample_world sample_proc
    = (Ok tt, st')
    /\ spawned st'
       = (spawned sample_proc
            ++ map processed_invocation
                 (Py.sorted (filter AddProcessed.is_processed_csv
                                    sample_processed_entries)))%list
    /\ Sorted str_le
         (Py.sorted (filter AddProcessed.is_processed_csv
                            sample_processed_entries))
    /\ Permutation
         (filter AddProcessed.is_processed_csv sample_processed_entries)
         (Py.sorted (filter AddProcessed.is_processed_csv
                            sample_processed_entries)).
Proof.
  apply (proj1 (proj2 (dispatch_order sample_world sample_proc))
               sample_processed_entries).
  reflexivity.
Defined.

(** C6 as stated fails for [batch_transfer_all_csvs]: two admissible
    iteration orders of the same set give two different dispatch orders for
    the same directory, and one of them is not sorted. *)
Lemma scrape_batch_order_counterexample :
  set_iter_ok sample_world
  /\ set_iter_ok sample_world_reversed
  /\ fs sample_world = fs sample_world_reversed
  /\ spawn sample_world = spawn sample_world_reversed
  /\ map inv_cmd
         (spawned (snd (ScrapeIntegration.batch_transfer_all_csvs
                          sample_world sample_proc)))
     = map ScrapeIntegration.queue_add_cmd
         [ "c:\Users\djman\OneDrive\Documents\GitHub\scrape-a-grave\AL_deaths.csv";
           "c:\Users\djman\OneDrive\Documents\GitHub\scrape-a-grave\TX_deaths.csv";
           "c:\Users\djman\OneDrive\Documents\GitHub\scrape-a-grave\us_recent_deaths_FL_deaths.csv" ]
  /\ map inv_cmd
         (spawned (snd (ScrapeIntegration.batch_transfer_all_csvs
                          sample_world_reversed sample_proc)))
     = map ScrapeIntegration.queue_add_cmd
         [ "c:\Users\djman\OneDrive\Documents\GitHub\scrape-a-grave\us_recent_deaths_FL_deaths.csv";
           "c:\Users\djman\OneDrive\Documents\GitHub\scrape-a-grave\TX_deaths.csv";
           "c:\Users\djman\OneDrive\Documents\GitHub\scrape-a-grave\AL_deaths.csv" ]
  /\ ~ Sorted str_le
         [ "c:\Users\djman\OneDrive\Documents\GitHub\scrape-a-grave\us_recent_deaths_FL_deaths.csv";
           "c:\Users\djman\OneDrive\Documents\GitHub\scrape-a-grave\TX_deaths.csv";
           "c:\Users\djman\OneDrive\Documents\GitHub\scrape-a-grave\AL_deaths.csv" ].
Proof.
  split; [apply first_seen_ok|].
  split; [apply last_seen_first_ok|].
  split; [reflexivity|]. split; [reflexivity|].
  split; [vm_compute; reflexivity|]. split; [vm_compute; reflexivity|].
  intros H. inversion H as [|a l _ Hd]; subst.
  inversion Hd as [|b l' Hle]; subst.
  vm_compute in Hle. discriminate.
Qed.

(** ** A root directory that does not exist *)

Lemma add_processed_no_files (w : World) (es : list string) (st : Proc) :
  fs w AddProcessed.processed_csvs_path = Some (Dir es) ->
  filter AddProcessed.is_processed_csv es = [] ->
  AddProcessed.add_processed_csvs_to_queue w st
  = (Ok tt,
     mkProc (cwd st)
       (printed st
          ++ "🔍 Found 0 processed CSV files" :: transfer_summary 0 0 0)
       (spawned st)).
Proof.
  intros Hfs Hnone.
  unfold AddProcessed.add_processed_csvs_to_queue, path_exists, listdir.
  rewrite Hfs. unfold ret at 1. unfold bind at 1. cbn [negb].
  unfold ret at 1. unfold bind at 1. cbv zeta. rewrite Hnone.
  change (Py.sorted []) with (@nil string).
  cbv [bind ret print for_fold].
  cbn [cwd printed spawned]. rewrite <- !app_assoc. reflexivity.
Qed.

(** [add-all-new-csvs.py] does not look at its root at all: a root that does
    not exist gives the run of an empty directory, summary included. *)
Lemma main_missing_root (w : World) (st : Proc) :
  fs w AddAllNew.processed_csvs_dir = None ->
  AddAllNew.main w st
  = (Ok tt,
     mkProc (cwd st)
       (printed st
          ++ [ "🚀 Adding all processed CSV files to CTBAL queue...";
               "📂 Searching directory: " ++ AddAllNew.processed_csvs_dir;
               "📋 Found 0 CSV files" ]
          ++ processing_summary 0 0 0)
       (spawned st)).
Proof.
  intros Hfs. unfold AddAllNew.main.
  assert (new_csv_files w = []) as Hnone
    by (unfold new_csv_files, entries_of; now rewrite Hfs).
  rewrite (bind_ok _ _ _ _ _ (print_run _ _)).
  rewrite (bind_ok _ _ _ _ _ (print_run _ _)).
  rewrite (bind_ok _ _ _ _ _ (glob_new_csv_files w _)).
  rewrite Hnone.
  rewrite (bind_ok _ _ _ _ _ (print_run _ _)).
  change (Py.sorted []) with (@nil string). cbn [for_fold].
  rewrite (bind_ok _ _ _ _ (0%Z, 0%Z) eq_refl).
  rewrite (bind_ok _ _ _ _ _ (print_run _ _)).
  rewrite (bind_ok _ _ _ _ _ (print_run _ _)).
  rewrite (bind_ok _ _ _ _ _ (print_run _ _)).
  rewrite (bind_ok _ _ _ _ _ (print_run _ _)).
  change (0 <? 0)%Z with false. unfold ret.
  cbn [cwd printed spawned]. rewrite <- !app_assoc. reflexivity.
Qed.

(** C7 (as amended).  When its root directory does not exist,
    [add_processed_csvs_to_queue] prints that the directory was not found
    and returns, and [find_state_csv_files] raises [FileNotFoundError] out of
    [batch_transfer_all_csvs]; in both cases no command has been spawned and
    no summary is printed, and a root that exists and holds no candidate
    gives a different report.  [main] of [add-all-new-csvs.py] does not
    look at its root: a missing root gives the report of an empty directory,
    summary of zeros included, with nothing spawned. *)
Theorem missing_root_stops_before_dispatch (w : World) (st : Proc) :
  (fs w AddProcessed.processed_csvs_path = None ->
   AddProcessed.add_processed_csvs_to_queue w st
   = (Ok tt,
      mkProc (cwd st)
        (printed st
           ++ ["❌ Processed CSVs directory not found: "
               ++ AddProcessed.processed_csvs_path])
        (spawned st)))
  /\ (fs w ScrapeIntegration.SCRAPE_A_GRAVE_PATH = None ->
      ScrapeIntegration.find_state_csv_files w st
      = (Raised (FileNotFoundError ScrapeIntegration.SCRAPE_A_GRAVE_PATH), st)
      /\ ScrapeIntegration.batch_transfer_all_csvs w st
         = (Raised (FileNotFoundError ScrapeIntegration.SCRAPE_A_GRAVE_PATH),
            mkProc (cwd st)
              (printed st ++ ["🔍 Scanning for state mortality CSV files..."])
              (spawned st)))
  /\ (forall es,
        fs w AddProcessed.processed_csvs_path = Some (Dir es) ->
        filter AddProcessed.is_processed_csv es = [] ->
        AddProcessed.add_processed_csvs_to_queue w st
        = (Ok tt,
           mkProc (cwd st)
             (printed st
                ++ "🔍 Found 0 processed CSV files" :: transfer_summary 0 0 0)
             (spawned st)))
  /\ (forall es,
        fs w ScrapeIntegration.SCRAPE_A_GRAVE_PATH = Some (Dir es) ->
        located w es ScrapeIntegration.patterns = [] ->
        ScrapeIntegration.batch_transfer_all_csvs w st
        = (Ok tt,
           mkProc ScrapeIntegration.SCRAPE_A_GRAVE_PATH
             (printed st
                ++ ["🔍 Scanning for state mortality CSV files...";
                    "📭 No CSV files found in scrape-a-grave directory"])
             (spawned st)))
  /\ (fs w AddAllNew.processed_csvs_dir = None ->
      AddAllNew.main w st
      = (Ok tt,
         mkProc (cwd st)
           (printed st
              ++ [ "🚀 Adding all processed CSV files to CTBAL queue...";
                   "📂 Searching directory: " ++ AddAllNew.processed_csvs_dir;
                   "📋 Found 0 CSV files" ]
              ++ processing_summary 0 0 0)
           (spawned st))).
Proof.
  split; [apply add_processed_missing|].
  split.
  - intros Hfs. split.
    + now apply find_csv_files_matching_missing.
    + now apply batch_transfer_missing.
  - split; [|split].
    + intros es. apply add_processed_no_files.
    + intros es. apply batch_transfer_none.
    + apply main_missing_root.
Qed.

Lemma missing_root_stops_before_dispatch_witness :
  AddProcessed.add_processed_csvs_to_queue bare_world sample_proc
  = (Ok tt,
     mkProc (cwd sample_proc)
       (printed sample_proc
          ++ ["❌ Processed CSVs directory not found: "
              ++ AddProcessed.processed_csvs_path])
       (spawned sample_proc))
  /\ ScrapeIntegration.batch_transfer_all_csvs bare_world sample_proc
     = (Raised (FileNotFoundError ScrapeIntegration.SCRAPE_A_GRAVE_PATH),
        mkProc (cwd sample_proc)
          (printed sample_proc
             ++ ["🔍 Scanning for state mortality CSV files..."])
          (spawned sample_proc)).
Proof.
  split.
  - apply (proj1 (missing_root_stops_before_dispatch bare_world sample_proc)).
    reflexivity.
  - apply (proj1 (proj2 (missing_root_stops_before_dispatch
                           bare_world sample_proc))).
    reflexivity.
Defined.

(** C7 as stated fails for [add-all-new-csvs.py]: on a machine without the
    processed directory its [main] reports no failure, prints the summary,
    and its whole run is the one it has when the directory exists and is
    empty. *)
Lemma add_all_new_missing_root_counterexample :
  fs bare_world AddAllNew.processed_csvs_dir = None
  /\ AddAllNew.main bare_world sample_proc
     = (Ok tt,
        mkProc (cwd sample_proc)
          ([ "🚀 Adding all processed CSV files to CTBAL queue...";
             "📂 Searching directory: " ++ AddAllNew.processed_csvs_dir;
             "📋 Found 0 CSV files" ]
             ++ processing_summary 0 0 0)
          [])
  /\ fs empty_dirs_world AddAllNew.processed_csvs_dir = Some (Dir [])
  /\ AddAllNew.main bare_world sample_proc
     = AddAllNew.main empty_dirs_world sample_proc.
Proof. repeat split; vm_compute; reflexivity. Qed.

(** ** The current directory *)

(** C10.  [find_state_csv_files] returns with the process moved into the
    scrape directory, wherever it was before; the batch and the whole of
    [main full] end there, nothing ever changing directory again; and what
    the process then resolves against its current directory ([getcwd],
    [abspath], a [glob] of a pattern without directory part) is resolved
    against the scrape directory. *)
Theorem find_state_csv_files_moves_the_process
        (w : World) (es : list string) (st : Proc) :
  fs w ScrapeIntegration.SCRAPE_A_GRAVE_PATH = Some (Dir es) ->
  ScrapeIntegration.find_state_csv_files w st
  = (Ok (located w es ScrapeIntegration.patterns),
     mkProc ScrapeIntegration.SCRAPE_A_GRAVE_PATH (printed st) (spawned st))
  /\ (exists st',
         ScrapeIntegration.batch_transfer_all_csvs w st = (Ok tt, st')
         /\ cwd st' = ScrapeIntegration.SCRAPE_A_GRAVE_PATH)
  /\ (forall prog,
         cwd (snd (ScrapeIntegration.main w [prog; "full"] st))
         = ScrapeIntegration.SCRAPE_A_GRAVE_PATH)
  /\ (forall st',
         cwd st' = ScrapeIntegration.SCRAPE_A_GRAVE_PATH ->
         getcwd st' = (Ok ScrapeIntegration.SCRAPE_A_GRAVE_PATH, st')
         /\ (forall p, bare p -> glob w p st' = (Ok (Glob.glob1 es p), st'))
         /\ (forall f,
                NtPath.abspath (cwd st') f
                = ScrapeIntegration.SCRAPE_A_GRAVE_PATH ++ NtPath.sep ++ f)).
Proof.
  intros Hfs.
  split; [apply find_csv_files_matching_run; [exact Hfs | exact patterns_bare]|].
  split; [now apply (batch_transfer_cwd w es)|].
  split; [intros prog; now apply (main_full_cwd w es)|].
  intros st' Hcwd. split; [unfold getcwd; now rewrite Hcwd|].
  split.
  - intros p Hp. rewrite (glob_bare w p st' Hp).
    unfold entries_of. now rewrite Hcwd, Hfs.
  - intros f. now rewrite Hcwd.
Qed.

Lemma find_state_csv_files_moves_the_process_witness :
  cwd sample_proc = "C:\Users\djman"
  /\ cwd (snd (ScrapeIntegration.find_state_csv_files sample_world sample_proc))
     = ScrapeIntegration.SCRAPE_A_GRAVE_PATH
  /\ cwd (snd (ScrapeIntegration.main sample_world
                 ["ctbal-scrape-integration.py"; "full"] sample_proc))
     = ScrapeIntegration.SCRAPE_A_GRAVE_PATH.
Proof.
  split; [reflexivity|]. split.
  - rewrite (proj1 (find_state_csv_files_moves_the_process
                      sample_world sample_scrape_entries sample_proc eq_refl)).
    reflexivity.
  - apply (proj1 (proj2 (proj2 (find_state_csv_files_moves_the_process
                      sample_world sample_scrape_entries sample_proc eq_refl)))).
Defined.

(** * Further properties of the scripts *)

(** ** The command line of [ctbal-scrape-integration.py] *)

Lemma lower_ascii_idem (c : ascii) :
  Py.lower_ascii (Py.lower_ascii c) = Py.lower_ascii c.
Proof. destruct c as [[] [] [] [] [] [] [] []]; reflexivity. Qed.

Lemma lower_idem (s : string) : Py.lower (Py.lower s) = Py.lower s.
Proof.
  induction s as [|c s IH]; simpl; [reflexivity|].
  now rewrite lower_ascii_idem, IH.
Qed.

Section ScrapeCommands.
Import ScrapeIntegration.
Variable w : World.

Lemma status_process_steps (st : Proc) :
  (exists lines,
      show_queue_status w st
      = (Ok (succeeded (spawn w (spawned st) status_invocation)),
         mkProc (cwd st) (printed st ++ lines)
                (spawned st ++ [status_invocation])))
  /\ (exists lines,
        process_queue w st
        = (Ok (succeeded (spawn w (spawned st) process_invocation)),
           mkProc (cwd st) (printed st ++ lines)
                  (spawned st ++ [process_invocation]))).
Proof.
  split.
  - unfold show_queue_status. run_steps. fold status_invocation.
    destruct (spawn w (spawned st) status_invocation) as [r|r msg|msg];
      cbn [succeeded cwd printed spawned].
    + eexists. reflexivity.
    + eexists. reflexivity.
    + eexists. rewrite <- app_assoc. reflexivity.
  - unfold process_queue. run_steps. fold process_invocation.
    destruct (spawn w (spawned st) process_invocation) as [r|r msg|msg];
      cbn [succeeded cwd printed spawned].
    + eexists. reflexivity.
    + eexists. reflexivity.
    + eexists. rewrite <- app_assoc. reflexivity.
Qed.

(** [show_queue_status] and [process_queue] spawn their command once in the
    CTBAL project directory, report success exactly for exit status zero,
    and turn a command that cannot be started into [False] instead of
    raising. *)
Theorem status_and_process_run (st : Proc) :
  (exists lines,
      show_queue_status w st
      = (Ok (succeeded (spawn w (spawned st) status_invocation)),
         mkProc (cwd st) (printed st ++ lines)
                (spawned st ++ [status_invocation])))
  /\ (exists lines,
        process_queue w st
        = (Ok (succeeded (spawn w (spawned st) process_invocation)),
           mkProc (cwd st) (printed st ++ lines)
                  (spawned st ++ [process_invocation]))).
Proof.
  destruct (status_process_steps st) as [Hstatus Hprocess].
  split; assumption.
Qed.

Lemma main_two_args (prog arg : string) (rest : list string) :
  main w (prog :: arg :: rest)
  = (let command := Py.lower arg in
     if String.eqb command "transfer" then batch_transfer_all_csvs w
     else if String.eqb command "status" then
       show_queue_status w ;; ret tt
     else if String.eqb command "process" then
       process_queue w ;; ret tt
     else if String.eqb command "full" then
       print "🔄 Full Pipeline: Transfer → Process" ;;
       batch_transfer_all_csvs w ;;
       print (nl ++ rule) ;;
       show_queue_status w ;;
       print (nl ++ rule) ;;
       process_queue w ;;
       ret tt
     else
       print ("❌ Unknown command: " ++ command) ;;
       print "Available commands: transfer, status, process, full").
Proof. reflexivity. Qed.

(** The command word is read without regard to case, and neither the
    program name nor any further argument matters. *)
Theorem main_command_case_insensitive
        (prog prog' arg : string) (rest rest' : list string) :
  main w (prog :: arg :: rest) = main w (prog' :: Py.lower arg :: rest').
Proof. rewrite !main_two_args. now rewrite lower_idem. Qed.

(** Without an argument, or with a first argument that is none of the four
    commands, [main] only prints: nothing is spawned, the current directory
    is kept and nothing is raised. *)
Theorem main_without_command (argv : list string) (st : Proc) :
  selects_nothing argv ->
  exists lines,
    main w argv st
    = (Ok tt, mkProc (cwd st) (printed st ++ lines) (spawned st)).
Proof.
  intros Hsel. destruct argv as [|prog [|arg rest]].
  - eexists. unfold main. cbv [bind print]. cbn [cwd printed spawned].
    rewrite <- !app_assoc. reflexivity.
  - eexists. unfold main. cbv [bind print]. cbn [cwd printed spawned].
    rewrite <- !app_assoc. reflexivity.
  - cbn [selects_nothing] in Hsel. unfold is_command in Hsel.
    apply orb_false_iff in Hsel. destruct Hsel as [Hsel Hfull].
    apply orb_false_iff in Hsel. destruct Hsel as [Hsel Hprocess].
    apply orb_false_iff in Hsel. destruct Hsel as [Htransfer Hstatus].
    rewrite main_two_args. cbv zeta.
    rewrite Htransfer, Hstatus, Hprocess, Hfull.
    eexists. cbv [bind print]. cbn [cwd printed spawned].
    rewrite <- !app_assoc. reflexivity.
Qed.

Lemma batch_transfer_any (es : list string) (st : Proc) :
  fs w SCRAPE_A_GRAVE_PATH = Some (Dir es) ->
  exists lines,
    batch_transfer_all_csvs w st
    = (Ok tt,
       mkProc SCRAPE_A_GRAVE_PATH (printed st ++ lines)
              (spawned st ++ map transfer_invocation (located w es patterns))).
Proof.
  intros Hfs.
  destruct (located w es patterns) as [|f0 fs0] eqn:E.
  - rewrite (batch_transfer_none w es st Hfs E).
    cbn [map]. rewrite app_nil_r. eexists. reflexivity.
  - destruct (batch_transfer_run w es st Hfs) as (l & Hl); [congruence|].
    rewrite E in Hl. eexists. exact Hl.
Qed.

(** [full] chains the three steps unconditionally: whatever the outcome of
    the transfers and of the status command, the commands spawned are the
    transfers, then the status command, then the process command. *)
Theorem main_full_run (es : list string) (prog : string) (st : Proc) :
  fs w SCRAPE_A_GRAVE_PATH = Some (Dir es) ->
  exists lines,
    main w [prog; "full"] st
    = (Ok tt,
       mkProc SCRAPE_A_GRAVE_PATH (printed st ++ lines)
         (spawned st
            ++ map transfer_invocation (located w es patterns)
            ++ [status_invocation; process_invocation])).
Proof.
  intros Hfs. rewrite main_two_args.
  change (Py.lower "full") with "full". cbv zeta.
  change (String.eqb "full" "transfer") with false.
  change (String.eqb "full" "status") with false.
  change (String.eqb "full" "process") with false.
  change (String.eqb "full" "full") with true. cbv iota.
  rewrite (bind_ok _ _ _ _ _ (print_run _ _)).
  match goal with
  | |- exists _, bind _ _ ?s = _ =>
      destruct (batch_transfer_any es s Hfs) as (l1 & H1)
  end.
  rewrite (bind_ok _ _ _ _ _ H1). cbn [cwd printed spawned].
  rewrite (bind_ok _ _ _ _ _ (print_run _ _)). cbn [cwd printed spawned].
  match goal with
  | |- exists _, bind _ _ ?s = _ =>
      destruct (proj1 (status_process_steps s)) as (l2 & H2)
  end.
  rewrite (bind_ok _ _ _ _ _ H2). cbn [cwd printed spawned].
  rewrite (bind_ok _ _ _ _ _ (print_run _ _)). cbn [cwd printed spawned].
  match goal with
  | |- exists _, bind _ _ ?s = _ =>
      destruct (proj2 (status_process_steps s)) as (l3 & H3)
  end.
  rewrite (bind_ok _ _ _ _ _ H3). cbn [cwd printed spawned]. unfold ret.
  eexists (_ :: l1 ++ _ :: l2 ++ _ :: l3)%list.
  rewrite <- ?app_assoc. cbn [app]. rewrite <- ?app_assoc. cbn [app].
  reflexivity.
Qed.

(** When the scrape directory cannot be entered, [transfer] and [full] end
    with the exception of [os.chdir]: [full] never reaches the status and
    process commands, and nothing is spawned. *)
Theorem main_stops_without_scrape_root
        (prog command : string) (st : Proc) :
  fs w SCRAPE_A_GRAVE_PATH = None ->
  command = "transfer" \/ command = "full" ->
  exists lines,
    main w [prog; command] st
    = (Raised (FileNotFoundError SCRAPE_A_GRAVE_PATH),
       mkProc (cwd st) (printed st ++ lines) (spawned st)).
Proof.
  intros Hfs [-> | ->]; rewrite main_two_args.
  - change (Py.lower "transfer") with "transfer". cbv zeta.
    change (String.eqb "transfer" "transfer") with true. cbv iota.
    rewrite (batch_transfer_missing w st Hfs). eexists. reflexivity.
  - change (Py.lower "full") with "full". cbv zeta.
    change (String.eqb "full" "transfer") with false.
    change (String.eqb "full" "status") with false.
    change (String.eqb "full" "process") with false.
    change (String.eqb "full" "full") with true. cbv iota.
    rewrite (bind_ok _ _ _ _ _ (print_run _ _)).
    rewrite (bind_raised _ _ _ _ _ (batch_transfer_missing w _ Hfs)).
    cbn [cwd printed spawned]. eexists. rewrite <- app_assoc. reflexivity.
Qed.

End ScrapeCommands.

(** ** Paths of the files and the labels derived from them *)

Lemma components_cons (s : string) : exists h t, NtPath.components s = h :: t.
Proof.
  induction s as [|c s (h & t & IH)]; simpl; [eauto|].
  destruct (NtPath.is_sep c); [eauto|]. rewrite IH. eauto.
Qed.

Lemma components_app_sep (a n : string) (c : ascii) :
  NtPath.is_sep c = true ->
  NtPath.components (a ++ String c n)
  = (NtPath.components a ++ NtPath.components n)%list.
Proof.
  intros Hc. induction a as [|x a IH]; simpl.
  - now rewrite Hc.
  - destruct (NtPath.is_sep x); rewrite IH; [reflexivity|].
    destruct (components_cons a) as (h & t & ->). reflexivity.
Qed.

Lemma components_no_sep (n : string) :
  NtPath.has_sep n = false -> NtPath.components n = [n].
Proof.
  induction n as [|c n IH]; simpl; intros H; [reflexivity|].
  apply orb_false_iff in H. destruct H as [-> H]. now rewrite (IH H).
Qed.

Lemma has_sep_app_sep (a n : string) (c : ascii) :
  NtPath.is_sep c = true -> NtPath.has_sep (a ++ String c n) = true.
Proof.
  intros Hc. induction a as [|x a IH]; simpl.
  - now rewrite Hc.
  - rewrite IH. apply orb_true_r.
Qed.

Lemma cut_last_sep_app (a n : string) (c : ascii) :
  NtPath.is_sep c = true -> NtPath.has_sep n = false ->
  NtPath.cut_last_sep (a ++ String c n) = (a ++ String c EmptyString, n).
Proof.
  intros Hc Hn. induction a as [|x a IH]; simpl.
  - now rewrite Hn, Hc.
  - rewrite (has_sep_app_sep a n c Hc). now rewrite IH.
Qed.

(** Past a directory of two characters or more, the drive is cut inside the
    directory and the rest still ends with the separator and the name. *)
Lemma splitdrive_joined (a b : ascii) (d n : string) :
  exists x,
    snd (NtPath.splitdrive (String a (String b d) ++ NtPath.sep ++ n))
    = x ++ String NtPath.backslash n.
Proof.
  change (String a (String b d) ++ NtPath.sep ++ n)
    with (String a (String b (d ++ String NtPath.backslash n))).
  destruct (Ascii.eqb_spec b ":"%char) as [->|Hne].
  - exists d. reflexivity.
  - exists (String a (String b d)).
    destruct b as [[] [] [] [] [] [] [] []]; try reflexivity.
    now contradiction Hne.
Qed.

Lemma backslash_is_sep : NtPath.is_sep NtPath.backslash = true.
Proof. reflexivity. Qed.

Lemma name_joined (a b : ascii) (d n : string) :
  NtPath.has_sep n = false -> NtPath.is_part n = true ->
  NtPath.name (String a (String b d) ++ NtPath.sep ++ n) = n.
Proof.
  intros Hsep Hpart. unfold NtPath.name.
  destruct (splitdrive_joined a b d n) as (x & ->).
  rewrite (components_app_sep x n _ backslash_is_sep).
  rewrite (components_no_sep n Hsep), filter_app.
  cbn [filter]. rewrite Hpart. apply last_last.
Qed.

Lemma basename_joined (a b : ascii) (d n : string) :
  NtPath.has_sep n = false ->
  NtPath.basename (String a (String b d) ++ NtPath.sep ++ n) = n.
Proof.
  intros Hsep. unfold NtPath.basename, NtPath.split.
  destruct (NtPath.splitdrive _) as [drive rest] eqn:E.
  destruct (splitdrive_joined a b d n) as (x & Hx).
  rewrite E in Hx. cbn [snd] in Hx. subst rest.
  now rewrite (cut_last_sep_app x n _ backslash_is_sep Hsep).
Qed.

(** For every entry of the scrape directory, the path handed on by
    [find_state_csv_files] has the entry's name as its last component, so
    the label [extract_state_from_filename] gives to a located file is
    decided by the entry's name alone: no part of the directory path can
    supply a state name. *)
Theorem located_file_label (n : string) :
  NtPath.has_sep n = false -> NtPath.is_part n = true ->
  NtPath.name (NtPath.abspath ScrapeIntegration.SCRAPE_A_GRAVE_PATH n) = n
  /\ ScrapeIntegration.extract_state_from_filename
       (NtPath.abspath ScrapeIntegration.SCRAPE_A_GRAVE_PATH n)
     = ScrapeIntegration.first_state ScrapeIntegration.state_patterns
         (Py.lower (NtPath.stem_of_name n)).
Proof.
  intros Hsep Hpart.
  assert (NtPath.name (NtPath.abspath ScrapeIntegration.SCRAPE_A_GRAVE_PATH n)
          = n) as Hname.
  { rewrite abspath_scrape. apply name_joined; assumption. }
  split; [exact Hname|].
  unfold ScrapeIntegration.extract_state_from_filename, NtPath.stem.
  now rewrite Hname.
Qed.

Lemma located_file_label_witness :
  NtPath.name (NtPath.abspath ScrapeIntegration.SCRAPE_A_GRAVE_PATH
                              "Texas_deaths.csv") = "Texas_deaths.csv".
Proof.
  apply (located_file_label "Texas_deaths.csv"); reflexivity.
Defined.

(** For every entry of the processed directory, the path [glob] returns to
    [main] of [add-all-new-csvs.py] has the entry's name as its
    [os.path.basename], so the abbreviation shown is computed from the
    entry's name. *)
Theorem globbed_file_basename (n : string) :
  NtPath.has_sep n = false ->
  NtPath.basename (NtPath.join AddAllNew.processed_csvs_dir n) = n.
Proof.
  intros Hsep.
  change (NtPath.join AddAllNew.processed_csvs_dir n)
    with (AddAllNew.processed_csvs_dir ++ NtPath.sep ++ n).
  apply basename_joined. exact Hsep.
Qed.

Lemma globbed_file_basename_witness :
  NtPath.basename
    (NtPath.join AddAllNew.processed_csvs_dir
                 "FL_20251118_210521_us_recent_deaths.csv")
  = "FL_20251118_210521_us_recent_deaths.csv".
Proof.
  apply (globbed_file_basename "FL_20251118_210521_us_recent_deaths.csv").
  reflexivity.
Defined.

(** Every row of [state_patterns] but the one of West Virginia is
    reachable: a file named after the key resolves to the row's state. *)
Theorem state_patterns_reachable (k v : string) :
  In (k, v) ScrapeIntegration.state_patterns ->
  k <> "westvirginia" ->
  ScrapeIntegration.extract_state_from_filename (k ++ "_deaths.csv") = v.
Proof.
  intros Hin Hne. unfold ScrapeIntegration.state_patterns in Hin.
  cbn [In] in Hin.
  repeat (destruct Hin as [Heq | Hin];
          [injection Heq as <- <-;
           first [now contradiction Hne | vm_compute; reflexivity]|]).
  contradiction.
Qed.

Lemma state_patterns_reachable_witness :
  ScrapeIntegration.extract_state_from_filename ("kansas" ++ "_deaths.csv")
  = "Kansas".
Proof.
  apply (state_patterns_reachable "kansas" "Kansas").
  - vm_compute. tauto.
  - discriminate.
Defined.

(** The lookup of [add-processed-csvs-to-queue.py] finds a row exactly when
    the abbreviation is registered, and then it is the row with that
    abbreviation; it is exact and case-sensitive equality on the key. *)
Theorem state_info_of_lookup (x : string) :
  (forall s, AddProcessed.state_info_of x = Some s
             <-> In s AddProcessed.states /\ abbreviation s = x)
  /\ (AddProcessed.state_info_of x = None
      <-> forall s, In s AddProcessed.states -> abbreviation s <> x).
Proof.
  split.
  - intros s. split.
    + intros H. unfold AddProcessed.state_info_of in H.
      apply find_some in H. destruct H as [Hin Heq].
      apply String.eqb_eq in Heq. auto.
    + intros [Hin <-]. now apply state_info_of_registered.
  - split.
    + intros Hnone s Hin Heq. subst x.
      destruct (state_info_of_registered s Hin) as [_ Hsome]. congruence.
    + apply state_info_of_miss.
Qed.

Lemma split_head_decompose (sep : ascii) (s : string) :
  Py.has_char sep s = true ->
  exists rest,
    s = Py.split_head sep s ++ String sep rest
    /\ Py.has_char sep (Py.split_head sep s) = false.
Proof.
  induction s as [|c s IH]; simpl; intros H; [discriminate|].
  destruct (Ascii.eqb_spec c sep) as [->|Hne].
  - exists s. split; reflexivity.
  - rewrite Ascii.eqb_sym in H.
    destruct (Ascii.eqb_spec c sep) as [|_]; [contradiction|].
    cbn [orb] in H. destruct (IH H) as (rest & Heq & Hno).
    exists rest. split.
    + simpl. now rewrite <- Heq.
    + simpl. rewrite Hno.
      destruct (Ascii.eqb_spec sep c) as [->|_]; [contradiction|reflexivity].
Qed.

(** For a file name that contains an underscore, both scripts take the same
    abbreviation: the text before the first underscore, which itself has no
    underscore and from which the name is recovered by putting back the
    underscore and the rest. *)
Theorem state_abbrev_decomposes (filename : string) :
  Py.has_char "_"%char filename = true ->
  AddProcessed.state_abbrev_of filename = AddAllNew.state_abbrev_of filename
  /\ Py.has_char "_"%char (AddAllNew.state_abbrev_of filename) = false
  /\ exists rest,
      filename = AddAllNew.state_abbrev_of filename ++ "_" ++ rest.
Proof.
  intros H. unfold AddProcessed.state_abbrev_of, AddAllNew.state_abbrev_of.
  rewrite H. destruct (split_head_decompose "_"%char filename H)
    as (rest & Heq & Hno).
  split; [reflexivity|]. split; [exact Hno|]. exists rest. exact Heq.
Qed.

Lemma state_abbrev_decomposes_witness :
  AddProcessed.state_abbrev_of "FL_20251118_210521_us_recent_deaths.csv"
  = AddAllNew.state_abbrev_of "FL_20251118_210521_us_recent_deaths.csv".
Proof.
  apply (state_abbrev_decomposes "FL_20251118_210521_us_recent_deaths.csv").
  reflexivity.
Defined.

Section ScrapeSingleCommands.
Import ScrapeIntegration.
Variable w : World.

(** [status] and [process] spawn their one command and nothing else; they
    neither look at the scrape directory nor move the process, so they work
    where [transfer] cannot. *)
Theorem main_status_and_process (prog : string) (st : Proc) :
  (exists lines,
      main w [prog; "status"] st
      = (Ok tt, mkProc (cwd st) (printed st ++ lines)
                       (spawned st ++ [status_invocation])))
  /\ (exists lines,
        main w [prog; "process"] st
        = (Ok tt, mkProc (cwd st) (printed st ++ lines)
                         (spawned st ++ [process_invocation]))).
Proof.
  split; rewrite main_two_args.
  - change (Py.lower "status") with "status". cbv zeta.
    change (String.eqb "status" "transfer") with false.
    change (String.eqb "status" "status") with true. cbv iota.
    destruct (proj1 (status_process_steps w st)) as (l & Hl).
    rewrite (bind_ok _ _ _ _ _ Hl). exists l. reflexivity.
  - change (Py.lower "process") with "process". cbv zeta.
    change (String.eqb "process" "transfer") with false.
    change (String.eqb "process" "status") with false.
    change (String.eqb "process" "process") with true. cbv iota.
    destruct (proj2 (status_process_steps w st)) as (l & Hl).
    rewrite (bind_ok _ _ _ _ _ Hl). exists l. reflexivity.
Qed.

End ScrapeSingleCommands.

(** ** Which files the other two scripts enqueue *)


(** [add_processed_csvs_to_queue] enqueues exactly the entries of the
    processed directory whose name ends with [.csv] and contains
    [_us_recent_deaths.csv], one command each; every such name has an
    underscore, so the abbreviation is always cut at a real delimiter. *)
Theorem processed_dispatch_is_filtered
        (w : World) (es : list string) (st : Proc) :
  fs w AddProcessed.processed_csvs_path = Some (Dir es) ->
  exists st' invs,
    AddProcessed.add_processed_csvs_to_queue w st = (Ok tt, st')
    /\ spawned st' = (spawned st ++ invs)%list
    /\ (forall inv,
           In inv invs
           <-> exists file,
               In file es
               /\ Py.endswith ".csv" file = true
               /\ Py.contains "_us_recent_deaths.csv" file = true
               /\ Py.has_char "_"%char file = true
               /\ inv = processed_invocation file).
Proof.
  intros Hfs.
  destruct (add_processed_run w es st Hfs) as (lines & Hrun).
  eexists _, _. split; [exact Hrun|]. cbn [spawned].
  split; [reflexivity|].
  intros inv. rewrite in_map_iff. split.
  - intros (file & <- & Hin).
    apply (Permutation_in _ (Permutation_sym (sorted_perm _))) in Hin.
    apply filter_In in Hin. destruct Hin as [Hin Hok].
    pose proof (processed_csv_has_underscore file Hok) as Hund.
    unfold AddProcessed.is_processed_csv in Hok.
    apply andb_true_iff in Hok. destruct Hok as [H1 H2].
    exists file. auto.
  - intros (file & Hin & H1 & H2 & _ & ->). exists file. split; [reflexivity|].
    apply (Permutation_in _ (sorted_perm _)).
    apply filter_In. split; [exact Hin|].
    unfold AddProcessed.is_processed_csv. now rewrite H1, H2.
Qed.

Lemma processed_dispatch_is_filtered_witness :
  exists st' invs,
    AddProcessed.add_processed_csvs_to_queue sample_world sample_proc
    = (Ok tt, st')
    /\ spawned st' = (spawned sample_proc ++ invs)%list
    /\ (forall inv,
           In inv invs
           <-> exists file,
               In file sample_processed_entries
               /\ Py.endswith ".csv" file = true
               /\ Py.contains "_us_recent_deaths.csv" file = true
               /\ Py.has_char "_"%char file = true
               /\ inv = processed_invocation file).
Proof.
  apply (processed_dispatch_is_filtered sample_world sample_processed_entries
                                        sample_proc).
  reflexivity.
Defined.

Lemma wild_literal (lit n : string) :
  Py.has_char "*"%char lit = false -> Py.has_char "?"%char lit = false ->
  Glob.wild lit n = String.eqb lit n.
Proof.
  revert n. induction lit as [|c lit IH]; intros n Hstar Hany.
  - destruct n; reflexivity.
  - cbn [Py.has_char] in Hstar, Hany.
    apply orb_false_iff in Hstar. destruct Hstar as [Hc1 Hstar].
    apply orb_false_iff in Hany. destruct Hany as [Hc2 Hany].
    rewrite Ascii.eqb_sym in Hc1. rewrite Ascii.eqb_sym in Hc2.
    cbn [Glob.wild]. rewrite Hc1.
    destruct n as [|d n]; [reflexivity|].
    rewrite Hc2, (IH n Hstar Hany). reflexivity.
Qed.

Lemma wild_star_literal (lit n : string) :
  Py.has_char "*"%char lit = false -> Py.has_char "?"%char lit = false ->
  Glob.wild (String "*"%char lit) n = Py.endswith lit n.
Proof.
  intros Hstar Hany. cbn [Glob.wild]. rewrite Ascii.eqb_refl.
  induction n as [|d n IH].
  - cbn [Py.endswith]. rewrite (wild_literal lit EmptyString Hstar Hany).
    now destruct (String.eqb lit EmptyString).
  - cbn [Py.endswith]. rewrite (wild_literal lit (String d n) Hstar Hany).
    destruct (String.eqb lit (String d n)); [reflexivity|].
    cbn [orb]. exact IH.
Qed.

(** [main] of [add-all-new-csvs.py] picks up every entry of the processed
    directory whose name ends in [.csv] (in any letter case) and does not
    start with a dot, whatever else the name holds: unlike the other
    script it does not ask for [_us_recent_deaths.csv]. *)
Theorem new_csv_files_spec (w : World) (f : string) :
  In f (new_csv_files w)
  <-> exists n,
      In n (entries_of w AddAllNew.processed_csvs_dir)
      /\ f = NtPath.join AddAllNew.processed_csvs_dir n
      /\ Glob.ishidden n = false
      /\ Py.endswith ".csv" (NtPath.normcase n) = true.
Proof.
  unfold new_csv_files, Glob.glob1. rewrite in_map_iff.
  assert (forall n, Glob.fnmatch n "*.csv"
                    = Py.endswith ".csv" (NtPath.normcase n)) as Hmatch.
  { intros n. unfold Glob.fnmatch.
    change (NtPath.normcase "*.csv") with (String "*"%char ".csv").
    now apply wild_star_literal. }
  split.
  - intros (n & <- & Hin). apply filter_In in Hin. destruct Hin as [Hin Hok].
    apply andb_true_iff in Hok. destruct Hok as [Hhid Hfn].
    rewrite Hmatch in Hfn. cbn [Glob.ishidden orb] in Hhid.
    apply negb_true_iff in Hhid. exists n. auto.
  - intros (n & Hin & -> & Hhid & Hend). exists n. split; [reflexivity|].
    apply filter_In. split; [exact Hin|].
    rewrite Hmatch, Hend, Hhid. reflexivity.
Qed.

Lemma count_ok_positive (os : list Outcome) :
  (0 <? count_ok os)%Z = existsb succeeded os.
Proof.
  induction os as [|o os IH]; [reflexivity|].
  rewrite count_ok_cons. cbn [existsb].
  destruct (succeeded o); cbn [orb].
  - apply Z.ltb_lt. unfold count_ok. lia.
  - rewrite Z.add_0_l. exact IH.
Qed.

Section AddAllNewMore.
Import AddAllNew.
Variable w : World.

(** The closing hints of [main] are printed exactly when at least one
    dispatch succeeded: they end the output in that case, and no line
    printed before them, nor any line of a run without a success, is one of
    them. *)
Theorem main_hints (st : Proc) :
  exists lines,
    main w st
    = (Ok tt,
       mkProc (cwd st)
         (printed st ++ lines
            ++ (if existsb succeeded
                     (outcomes w (spawned st)
                        (map (add_invocation (cwd st))
                             (Py.sorted (new_csv_files w))))
                then hint_lines else []))
         (spawned st
            ++ map (add_invocation (cwd st)) (Py.sorted (new_csv_files w))))
    /\ Forall plain lines.
Proof.
  unfold main.
  rewrite (bind_ok _ _ _ _ _ (print_run _ _)).
  rewrite (bind_ok _ _ _ _ _ (print_run _ _)).
  rewrite (bind_ok _ _ _ _ _ (glob_new_csv_files w _)).
  rewrite (bind_ok _ _ _ _ _ (print_run _ _)).
  cbn [cwd printed spawned].
  match goal with
  | |- exists _, bind _ _ ?s = _ /\ _ =>
      destruct (process_loop w (Py.sorted (new_csv_files w)) s 0%Z 0%Z)
        as (l & Hl & Hplain)
  end.
  rewrite (bind_ok _ _ _ _ _ Hl). cbn [cwd printed spawned].
  rewrite !Z.add_0_l.
  rewrite (bind_ok _ _ _ _ _ (print_run _ _)).
  rewrite (bind_ok _ _ _ _ _ (print_run _ _)).
  rewrite (bind_ok _ _ _ _ _ (print_run _ _)).
  rewrite (bind_ok _ _ _ _ _ (print_run _ _)).
  cbn [cwd printed spawned].
  rewrite count_ok_positive.
  assert (forall a b c d e g h : string,
             plain a -> plain b -> plain c -> plain d -> plain e ->
             plain g -> plain h ->
             Forall plain (a :: b :: c :: l ++ [d; e; g; h])%list) as Hall.
  { intros a b c d e g h Ha Hb Hc Hd He Hg Hh.
    repeat (constructor; [assumption|]).
    apply Forall_app. split; [exact Hplain|].
    repeat (constructor; [assumption|]). constructor. }
  destruct (existsb succeeded _).
  - rewrite (bind_ok _ _ _ _ _ (print_run _ _)). rewrite print_run.
    cbn [cwd printed spawned].
    eexists (_ :: _ :: _ :: l ++ [_; _; _; _])%list. split.
    + unfold hint_lines.
      rewrite <- ?app_assoc. cbn [app]. rewrite <- ?app_assoc. reflexivity.
    + apply Hall; plain_line.
  - unfold ret.
    eexists (_ :: _ :: _ :: l ++ [_; _; _; _])%list. split.
    + rewrite app_nil_r.
      rewrite <- ?app_assoc. cbn [app]. rewrite <- ?app_assoc. reflexivity.
    + apply Hall; plain_line.
Qed.

(** The abbreviation handed to [add_csv_to_queue] is used for printing
    only: the command spawned, the directory it is spawned in and the
    verdict do not depend on it. *)
Theorem dispatch_independent_of_label (f a1 a2 : string) (st : Proc) :
  fst (add_csv_to_queue w f a1 st) = fst (add_csv_to_queue w f a2 st)
  /\ spawned (snd (add_csv_to_queue w f a1 st))
     = spawned (snd (add_csv_to_queue w f a2 st))
  /\ cwd (snd (add_csv_to_queue w f a1 st))
     = cwd (snd (add_csv_to_queue w f a2 st)).
Proof.
  destruct (add_csv_to_queue_run w f a1 st) as (l1 & -> & _).
  destruct (add_csv_to_queue_run w f a2 st) as (l2 & -> & _).
  repeat split.
Qed.

(** [main] never looks whether its directory exists: a directory that is
    missing, or that is a file, gives the run of an empty directory, with
    nothing spawned and a summary of zeros. *)
Theorem main_unlistable_root (st : Proc) :
  fs w processed_csvs_dir = None \/ fs w processed_csvs_dir = Some File ->
  main w st
  = (Ok tt,
     mkProc (cwd st)
       (printed st
          ++ [ "🚀 Adding all processed CSV files to CTBAL queue...";
               "📂 Searching directory: " ++ processed_csvs_dir;
               "📋 Found 0 CSV files" ]
          ++ processing_summary 0 0 0)
       (spawned st)).
Proof.
  intros Hfs. unfold main.
  assert (new_csv_files w = []) as Hnone
    by (unfold new_csv_files, entries_of; destruct Hfs as [-> | ->];
        reflexivity).
  rewrite (bind_ok _ _ _ _ _ (print_run _ _)).
  rewrite (bind_ok _ _ _ _ _ (print_run _ _)).
  rewrite (bind_ok _ _ _ _ _ (glob_new_csv_files w _)).
  rewrite Hnone.
  rewrite (bind_ok _ _ _ _ _ (print_run _ _)).
  change (Py.sorted []) with (@nil string). cbn [for_fold].
  rewrite (bind_ok _ _ _ _ (0%Z, 0%Z) eq_refl).
  rewrite (bind_ok _ _ _ _ _ (print_run _ _)).
  rewrite (bind_ok _ _ _ _ _ (print_run _ _)).
  rewrite (bind_ok _ _ _ _ _ (print_run _ _)).
  rewrite (bind_ok _ _ _ _ _ (print_run _ _)).
  change (0 <? 0)%Z with false. unfold ret.
  cbn [cwd printed spawned]. rewrite <- !app_assoc. reflexivity.
Qed.

End AddAllNewMore.

Lemma main_unlistable_root_witness :
  AddAllNew.main bare_world sample_proc
  = (Ok tt,
     mkProc (cwd sample_proc)
       (printed sample_proc
          ++ [ "🚀 Adding all processed CSV files to CTBAL queue...";
               "📂 Searching directory: " ++ AddAllNew.processed_csvs_dir;
               "📋 Found 0 CSV files" ]
          ++ processing_summary 0 0 0)
       (spawned sample_proc)).
Proof.
  apply (main_unlistable_root bare_world sample_proc).
  left. reflexivity.
Defined.

(** A root that exists but is a file passes the existence test of
    [add_processed_csvs_to_queue] and the listing then raises
    [NotADirectoryError] outside any handler; in [find_state_csv_files] it is
    [os.chdir] that raises it.  Nothing is spawned and the process stays
    where it was. *)
Theorem root_is_a_file (w : World) (st : Proc) :
  (fs w AddProcessed.processed_csvs_path = Some File ->
   AddProcessed.add_processed_csvs_to_queue w st
   = (Raised (NotADirectoryError AddProcessed.processed_csvs_path), st))
  /\ (fs w ScrapeIntegration.SCRAPE_A_GRAVE_PATH = Some File ->
      ScrapeIntegration.batch_transfer_all_csvs w st
      = (Raised (NotADirectoryError ScrapeIntegration.SCRAPE_A_GRAVE_PATH),
         mkProc (cwd st)
           (printed st ++ ["🔍 Scanning for state mortality CSV files..."])
           (spawned st))).
Proof.
  split; [apply add_processed_not_a_directory|].
  intros Hfs. unfold ScrapeIntegration.batch_transfer_all_csvs.
  rewrite (bind_ok _ _ _ _ _ (print_run _ st)).
  unfold ScrapeIntegration.find_state_csv_files,
    ScrapeIntegration.find_csv_files_matching, chdir.
  unfold bind at 1. unfold bind at 1. now rewrite Hfs.
Qed.

Lemma root_is_a_file_witness :
  AddProcessed.add_processed_csvs_to_queue
    (mkWorld (fun _ => Some File) sample_spawn first_seen) sample_proc
  = (Raised (NotADirectoryError AddProcessed.processed_csvs_path), sample_proc).
Proof.
  apply (proj1 (root_is_a_file
                  (mkWorld (fun _ => Some File) sample_spawn first_seen)
                  sample_proc)).
  reflexivity.
Defined.

(** Neither [add-all-new-csvs.py] nor [add-processed-csvs-to-queue.py]
    ever changes the current directory of the process, however the run
    ends. *)
Theorem other_scripts_keep_cwd (w : World) (st : Proc) :
  cwd (snd (AddAllNew.main w st)) = cwd st
  /\ cwd (snd (AddProcessed.add_processed_csvs_to_queue w st)) = cwd st.
Proof.
  split.
  - destruct (main_run w st) as (lines & rest & ->). reflexivity.
  - destruct (fs w AddProcessed.processed_csvs_path) as [[|es]|] eqn:Hfs.
    + now rewrite (add_processed_not_a_directory w st Hfs).
    + destruct (add_processed_run w es st Hfs) as (lines & ->). reflexivity.
    + now rewrite (add_processed_missing w st Hfs).
Qed.

Lemma append_dquote_inj (f g : string) :
  f ++ dquote = g ++ dquote -> f = g.
Proof.
  revert g. induction f as [|c f IH]; intros [|d g] H; simpl in H.
  - reflexivity.
  - injection H as _ H. destruct g; discriminate.
  - injection H as _ H. destruct f; discriminate.
  - injection H as -> H. f_equal. now apply IH.
Qed.

(** When the entries of the directory are pairwise distinct, as those of a
    directory are, each of the two scripts spawns pairwise distinct
    commands: no file is enqueued twice in a run. *)
Theorem other_scripts_enqueue_once (w : World) (st : Proc) :
  (NoDup (entries_of w AddAllNew.processed_csvs_dir) ->
   exists st' invs,
     AddAllNew.main w st = (Ok tt, st')
     /\ spawned st' = (spawned st ++ invs)%list
     /\ NoDup (map inv_cmd invs))
  /\ (forall es,
         fs w AddProcessed.processed_csvs_path = Some (Dir es) ->
         NoDup es ->
         exists st' invs,
           AddProcessed.add_processed_csvs_to_queue w st = (Ok tt, st')
           /\ spawned st' = (spawned st ++ invs)%list
           /\ NoDup (map inv_cmd invs)).
Proof.
  split.
  - intros Hnd. destruct (main_run w st) as (lines & rest & Hrun).
    eexists _, _. split; [exact Hrun|]. cbn [spawned].
    split; [reflexivity|].
    rewrite map_map. cbn [add_invocation inv_cmd].
    apply Finite.Injective_map_NoDup.
    + intros f g H. unfold AddAllNew.queue_add_cmd in H.
      apply append_inj_l in H. apply append_inj_l in H.
      now apply append_dquote_inj.
    + apply (Permutation_NoDup (sorted_perm _)).
      unfold new_csv_files. apply Finite.Injective_map_NoDup.
      * intros f g H.
        change (AddAllNew.processed_csvs_dir ++ NtPath.sep ++ f
                = AddAllNew.processed_csvs_dir ++ NtPath.sep ++ g) in H.
        apply append_inj_l in H. now apply append_inj_l in H.
      * unfold Glob.glob1. now apply NoDup_filter.
  - intros es Hfs Hnd.
    destruct (add_processed_run w es st Hfs) as (lines & Hrun).
    eexists _, _. split; [exact Hrun|]. cbn [spawned].
    split; [reflexivity|].
    rewrite map_map. cbn [processed_invocation inv_cmd].
    apply Finite.Injective_map_NoDup.
    + intros f g H. unfold AddProcessed.queue_add_cmd in H.
      apply append_inj_l in H. apply append_inj_l in H.
      apply append_dquote_inj in H.
      change (AddProcessed.processed_csvs_path ++ NtPath.sep ++ f
              = AddProcessed.processed_csvs_path ++ NtPath.sep ++ g) in H.
      apply append_inj_l in H. now apply append_inj_l in H.
    + apply (Permutation_NoDup (sorted_perm _)). now apply NoDup_filter.
Qed.

Lemma other_scripts_enqueue_once_witness :
  exists st' invs,
    AddProcessed.add_processed_csvs_to_queue sample_world sample_proc
    = (Ok tt, st')
    /\ spawned st' = (spawned sample_proc ++ invs)%list
    /\ NoDup (map inv_cmd invs).
Proof.
  apply (proj2 (other_scripts_enqueue_once sample_world sample_proc)
               sample_processed_entries).
  - reflexivity.
  - unfold sample_processed_entries.
    repeat (constructor; [cbn [In]; intros H;
                          repeat (destruct H as [H|H]; [discriminate|]);
                          exact H|]).
    constructor.
Defined.

Lemma endswith_tail (lit n : string) (d : ascii) :
  Py.endswith lit n = true -> Py.endswith lit (String d n) = true.
Proof.
  intros H. cbn [Py.endswith].
  destruct (String.eqb lit (String d n)); [reflexivity | exact H].
Qed.

Lemma wild_ends_with (p lit n : string) :
  Py.has_char "*"%char lit = false -> Py.has_char "?"%char lit = false ->
  Glob.wild (p ++ lit) n = true -> Py.endswith lit n = true.
Proof.
  intros Hstar Hany. revert n. induction p as [|c p IH]; intros n H.
  - change (EmptyString ++ lit) with lit in H.
    rewrite (wild_literal lit n Hstar Hany) in H.
    destruct n; cbn [Py.endswith]; now rewrite H.
  - change (String c p ++ lit) with (String c (p ++ lit)) in H.
    cbn [Glob.wild] in H. destruct (Ascii.eqb c "*"%char).
    + induction n as [|d n IHn].
      * rewrite orb_false_r in H. now apply IH.
      * apply orb_true_iff in H. destruct H as [H | H]; [now apply IH|].
        apply endswith_tail. now apply IHn.
    + destruct n as [|d n]; [discriminate|].
      apply andb_true_iff in H. destruct H as [_ H].
      apply endswith_tail. now apply IH.
Qed.

Lemma patterns_end_with_csv (p : string) :
  In p ScrapeIntegration.patterns ->
  exists q, NtPath.normcase p = q ++ ".csv" /\ Glob.ishidden p = false.
Proof.
  unfold ScrapeIntegration.patterns. cbn [In].
  intros [<- | [<- | [<- | [<- | [<- | []]]]]].
  - now exists "us_recent_deaths_*".
  - now exists "*_deaths".
  - now exists "deaths_*".
  - now exists "mortality_*".
  - now exists "*_mortality".
Qed.

(** Every path [find_state_csv_files] returns is the scrape directory joined
    with one of its entries, whose name ends in [.csv] (in any letter case)
    and does not start with a dot. *)
Theorem located_files_are_csv (w : World) (es : list string) (f : string) :
  set_iter_ok w ->
  In f (located w es ScrapeIntegration.patterns) ->
  exists n,
    In n es
    /\ f = NtPath.abspath ScrapeIntegration.SCRAPE_A_GRAVE_PATH n
    /\ Py.endswith ".csv" (NtPath.normcase n) = true
    /\ Glob.ishidden n = false.
Proof.
  intros Hset Hin. unfold located in Hin. apply in_map_iff in Hin.
  destruct Hin as (n & <- & Hin).
  destruct (Hset (flat_map (Glob.glob1 es) ScrapeIntegration.patterns))
    as [_ Hiff].
  apply (proj1 (Hiff n)) in Hin. apply in_flat_map in Hin.
  destruct Hin as (p & Hp & Hn).
  unfold Glob.glob1 in Hn. apply filter_In in Hn. destruct Hn as [Hes Hok].
  apply andb_true_iff in Hok. destruct Hok as [Hhid Hfn].
  destruct (patterns_end_with_csv p Hp) as (q & Hq & Hph).
  rewrite Hph in Hhid. cbn [orb] in Hhid. apply negb_true_iff in Hhid.
  unfold Glob.fnmatch in Hfn. rewrite Hq in Hfn.
  exists n. repeat split; try assumption.
  now apply (wild_ends_with q ".csv").
Qed.

Lemma located_files_are_csv_witness :
  exists n,
    In n sample_scrape_entries
    /\ NtPath.abspath ScrapeIntegration.SCRAPE_A_GRAVE_PATH "TX_deaths.csv"
       = NtPath.abspath ScrapeIntegration.SCRAPE_A_GRAVE_PATH n
    /\ Py.endswith ".csv" (NtPath.normcase n) = true
    /\ Glob.ishidden n = false.
Proof.
  apply (located_files_are_csv sample_world sample_scrape_entries).
  - apply first_seen_ok.
  - vm_compute. tauto.
Defined.

Lemma main_without_command_witness :
  exists lines,
    ScrapeIntegration.main sample_world
      ["ctbal-scrape-integration.py"; "Queue"] sample_proc
    = (Ok tt,
       mkProc (cwd sample_proc) (printed sample_proc ++ lines)
              (spawned sample_proc)).
Proof.
  apply (main_without_command sample_world
           ["ctbal-scrape-integration.py"; "Queue"] sample_proc).
  reflexivity.
Defined.

Lemma main_full_run_witness :
  exists lines,
    ScrapeIntegration.main sample_world
      ["ctbal-scrape-integration.py"; "full"] sample_proc
    = (Ok tt,
       mkProc ScrapeIntegration.SCRAPE_A_GRAVE_PATH
         (printed sample_proc ++ lines)
         (spawned sample_proc
            ++ map transfer_invocation
                   (located sample_world sample_scrape_entries
                            ScrapeIntegration.patterns)
            ++ [status_invocation; process_invocation])).
Proof.
  apply (main_full_run sample_world sample_scrape_entries
                       "ctbal-scrape-integration.py" sample_proc).
  reflexivity.
Defined.

Lemma main_stops_without_scrape_root_witness :
  exists lines,
    ScrapeIntegration.main bare_world
      ["ctbal-scrape-integration.py"; "full"] sample_proc
    = (Raised (FileNotFoundError ScrapeIntegration.SCRAPE_A_GRAVE_PATH),
       mkProc (cwd sample_proc) (printed sample_proc ++ lines)
              (spawned sample_proc)).
Proof.
  apply (main_stops_without_scrape_root bare_world
           "ctbal-scrape-integration.py" "full" sample_proc).
  - reflexivity.
  - right. reflexivity.
Defined.
